(** * Plugin update of the satori agent: [agent/plugins/update.go]

    A shallow embedding of the update path of the agent (guard state,
    fetch, alternate signing keys, signature check, checkout) and of the
    self-update of the binary, with the properties of the design document
    settled against it.

    Go strings are byte strings: they are modelled by [string], one
    [ascii] per byte.  A Go [error] is modelled by its message.  A run that
    panics is kept apart from a run that returns an error. *)

From Stdlib Require Import List String Ascii Bool ZArith Lia.
From Stdlib Require Import Strings.Byte.
Import ListNotations.
Local Open Scope string_scope.
Local Open Scope list_scope.

(** Concatenation of Go strings. *)
Infix "+++" := String.append (right associativity, at level 60).

Set Implicit Arguments.

(** ** The Go [strings] package, as far as update.go uses it *)

Module strings.

(** [s[n:]] *)
Fixpoint drop (n : nat) (s : string) : string :=
  match n, s with
  | O, _ => s
  | S _, EmptyString => EmptyString
  | S k, String _ r => drop k r
  end.

(** [strings.HasPrefix(s, p)] *)
Definition HasPrefix (s p : string) : bool := String.prefix p s.

(** The UTF-8 encodings of the runes for which [unicode.IsSpace] holds.
    No encoding is a prefix or a suffix of another one, and none begins
    with a continuation byte, so a byte string starts (ends) with a space
    rune exactly when it starts (ends) with one of these. *)
Definition b (n : nat) : ascii := ascii_of_nat n.

Definition spaceRunes : list (list ascii) :=
  [ [b 9]; [b 10]; [b 11]; [b 12]; [b 13]; [b 32];
    [b 194; b 133]; [b 194; b 160];
    [b 225; b 154; b 128];
    [b 226; b 128; b 128]; [b 226; b 128; b 129]; [b 226; b 128; b 130];
    [b 226; b 128; b 131]; [b 226; b 128; b 132]; [b 226; b 128; b 133];
    [b 226; b 128; b 134]; [b 226; b 128; b 135]; [b 226; b 128; b 136];
    [b 226; b 128; b 137]; [b 226; b 128; b 138];
    [b 226; b 128; b 168]; [b 226; b 128; b 169]; [b 226; b 128; b 175];
    [b 226; b 129; b 159];
    [b 227; b 128; b 128] ].

Fixpoint startsWith (p l : list ascii) : bool :=
  match p, l with
  | [], _ => true
  | _ :: _, [] => false
  | x :: p', y :: l' => Ascii.eqb x y && startsWith p' l'
  end.

(** Width in bytes of the space rune at the front of [l]; 0 if none. *)
Definition spaceWidth (runes : list (list ascii)) (l : list ascii) : nat :=
  match find (fun r => startsWith r l) runes with
  | Some r => List.length r
  | None => 0
  end.

(** Strip the space runes at the front; [skip] counts the bytes of the
    current space rune still to be dropped. *)
Fixpoint trimFront (runes : list (list ascii)) (skip : nat)
         (l : list ascii) : list ascii :=
  match l with
  | [] => []
  | _ :: r =>
      match skip with
      | S k => trimFront runes k r
      | O =>
          match spaceWidth runes l with
          | O => l
          | S k => trimFront runes k r
          end
      end
  end.

(** [strings.TrimSpace(s)] *)
Definition TrimSpace (s : string) : string :=
  let front := trimFront spaceRunes 0 (list_ascii_of_string s) in
  let back := trimFront (map (@rev ascii) spaceRunes) 0 (rev front) in
  string_of_list_ascii (rev back).

(** [strings.Fields(s)]: the maximal runs of bytes free of space runes.
    [cur] is the field being read, reversed. *)
Definition flush (cur : list ascii) : list string :=
  match cur with
  | [] => []
  | _ :: _ => [string_of_list_ascii (rev cur)]
  end.

Fixpoint fieldsFrom (skip : nat) (cur : list ascii) (l : list ascii)
  : list string :=
  match l with
  | [] => flush cur
  | c :: r =>
      match skip with
      | S k => fieldsFrom k cur r
      | O =>
          match spaceWidth spaceRunes l with
          | O => fieldsFrom 0 (c :: cur) r
          | S k => flush cur ++ fieldsFrom k [] r
          end
      end
  end.

Definition Fields (s : string) : list string :=
  fieldsFrom 0 [] (list_ascii_of_string s).

(** [strings.Split(s, sep)] for a separator of one byte, which is how
    update.go calls it (a newline, a colon).  [cur] is the piece being
    read, reversed. *)
Fixpoint splitFrom (sep : ascii) (cur : list ascii) (s : string)
  : list string :=
  match s with
  | EmptyString => [string_of_list_ascii (rev cur)]
  | String c r =>
      if Ascii.eqb c sep
      then string_of_list_ascii (rev cur) :: splitFrom sep [] r
      else splitFrom sep (c :: cur) r
  end.

Definition Split (s : string) (sep : ascii) : list string :=
  splitFrom sep [] s.

End strings.

Definition LF : ascii := ascii_of_nat 10.
Definition colon : ascii := ":"%char.
Definition nl : string := String LF EmptyString.

(** ** Errors and outcomes *)

(** A Go [error], by its message. *)
Definition error := string.

(** How a call ends: it returns, it panics (a Go runtime panic, which
    nothing in update.go recovers), or the process image was replaced by
    [syscall.Exec] and the call never returns. *)
Inductive Res (A : Type) : Type :=
| Ret (a : A)
| Panic (msg : string)
| Replaced.

Arguments Panic {A} msg.
Arguments Replaced {A}.

(** Indexing a slice: [a[i]] panics out of range. *)
Definition index {A : Type} (a : list A) (i : nat) : Res A :=
  match nth_error a i with
  | Some x => Ret x
  | None => Panic "runtime error: index out of range"
  end.

(** ** Packages update.go imports

    [encoding/base64], [github.com/agl/ed25519], [crypto/sha256] and [path]
    are not part of the repository: the program is modelled over any
    implementation of them. *)

Class Libs : Type := {
  (** [base64.StdEncoding.DecodeString] *)
  base64_DecodeString : string -> list byte + error;
  (** [ed25519.Verify(publicKey *[32]byte, message []byte, sig *[64]byte)] *)
  ed25519_Verify : list byte -> list byte -> list byte -> bool;
  (** [sha256.New()], [Write] of the whole file, [Sum(nil)] *)
  sha256_Sum : list byte -> list byte;
  (** [path.Join(a, b)] and [path.Dir(p)] *)
  path_Join : string -> string -> string;
  path_Dir : string -> string
}.

(** [copy(dst[:], src)] into a zeroed array of [n] bytes: the first [n]
    bytes of [src], then zeros. *)
Definition copyInto (n : nat) (src : list byte) : list byte :=
  firstn n src ++ repeat x00 (n - List.length src).

(** [bytes.Equal] *)
Fixpoint bytes_Equal (a c : list byte) : bool :=
  match a, c with
  | [], [] => true
  | x :: a', y :: c' => Byte.eqb x y && bytes_Equal a' c'
  | _, _ => false
  end.

(** [[]byte(s)] *)
Definition bytesOf (s : string) : list byte := list_byte_of_string s.

(** [hex.EncodeToString] *)
Definition hexDigit (n : N) : ascii :=
  ascii_of_N (if (n <? 10)%N then n + 48 else n + 87)%N.

Fixpoint hex_EncodeToString (bs : list byte) : string :=
  match bs with
  | [] => EmptyString
  | x :: r =>
      let n := Byte.to_N x in
      String (hexDigit (N.shiftr n 4))
        (String (hexDigit (N.land n 15)) (hex_EncodeToString r))
  end.

(** ** Configuration and the outside world *)

Record PluginConfig : Type := {
  Enabled : bool;
  CheckoutPath : string;
  Git : string;
  SigningKeys : list string;
  AltSigningKeysFile : string
}.

Record GlobalConfig : Type := {
  Debug : bool;
  Plugin : PluginConfig;
  SelfUpdate : bool
}.

(** What [cmd.Run()] gives: the error (nil when the command exits with
    status 0) and what it wrote to the buffer. *)
Record CmdResult : Type := {
  cmdErr : option error;
  cmdOut : string
}.

(** The answers of the operating system, of git and of the shell to the
    calls of the program.  [clock n] is the [n]-th reading of
    [time.Now().Unix()]. *)
Record Env : Type := {
  Config : GlobalConfig;
  Hostname : string;
  clock : nat -> Z;
  IsExist : string -> bool;
  git_init : string -> CmdResult;
  git_remote_add : string -> string -> CmdResult;
  git_fetch : string -> CmdResult;
  git_cat_file : string -> string -> CmdResult;
  git_rev_list : string -> string -> string -> CmdResult;
  git_reset_hard : string -> string -> CmdResult;
  ReadFile : string -> string + error;
  Executable : string + error;
  os_Open : string -> option error;
  io_Copy : string -> list byte + error;
  sh_test_f : string -> bool;
  sh_rm_f : string -> option error;
  sh_mv : string -> string -> option error;
  sh_cp_a : string -> string -> option error;
  Args : list string;
  Environ : list string;
  syscall_Exec : string -> option error
}.

(** What the program does to the outside world. *)
Inductive Event : Type :=
| Log (msg : string)
| SendToTransfer (endpoint metric : string) (timestamp : Z) (desc : string)
| MkdirAll (path : string)
| RemoveAll (path : string)
| GitInit (path : string)
| GitRemoteAdd (dir remote : string)
| GitFetch (dir : string)
| GitCatFile (dir rev : string)
| GitRevList (dir head file : string)
| GitResetHard (dir head : string)
| ReadKeyFile (path : string)
| ShRemove (path : string)
| ShRename (src dst : string)
| ShCopy (src dst : string)
| Exec (path : string) (argv envv : list string).

(** The package variables [updateInflight] and [lastPluginUpdate], and the
    number of clock readings so far. *)
Record State : Type := {
  updateInflight : bool;
  lastPluginUpdate : Z;
  ticks : nat
}.

(** An event is observed together with the value [updateInflight] has when
    it happens. *)
Definition Obs : Type := Event * bool.

(** Computations: state passing, the events in order, and the outcome. *)
Definition M (A : Type) : Type := State -> Res A * State * list Obs.

Definition ret {A : Type} (a : A) : M A := fun st => (Ret a, st, []).

Definition bind {A B : Type} (m : M A) (f : A -> M B) : M B :=
  fun st =>
    match m st with
    | (Ret a, st1, t1) =>
        match f a st1 with
        | (r, st2, t2) => (r, st2, t1 ++ t2)
        end
    | (Panic msg, st1, t1) => (Panic msg, st1, t1)
    | (Replaced, st1, t1) => (Replaced, st1, t1)
    end.

Notation "x <- m ;; k" := (bind m (fun x => k))
  (at level 61, m at next level, right associativity).
Notation "m ;;; k" := (bind m (fun _ => k))
  (at level 61, right associativity).

Definition lift {A : Type} (r : Res A) : M A := fun st => (r, st, []).

Definition emit (e : Event) : M unit :=
  fun st => (Ret tt, st, [(e, updateInflight st)]).

Definition setInflight (v : bool) : M unit :=
  fun st => (Ret tt,
             {| updateInflight := v;
                lastPluginUpdate := lastPluginUpdate st;
                ticks := ticks st |}, []).

Definition setLast (v : Z) : M unit :=
  fun st => (Ret tt,
             {| updateInflight := updateInflight st;
                lastPluginUpdate := v;
                ticks := ticks st |}, []).

Definition getInflight : M bool := fun st => (Ret (updateInflight st), st, []).
Definition getLast : M Z := fun st => (Ret (lastPluginUpdate st), st, []).

(** [defer cleanup] around [body]: the cleanup runs when the body returns
    and when it panics. *)
Definition defer {A : Type} (cleanup : M unit) (body : M A) : M A :=
  fun st =>
    match body st with
    | (Replaced, st1, t1) => (Replaced, st1, t1)
    | (r, st1, t1) =>
        match cleanup st1 with
        | (Ret _, st2, t2) => (r, st2, t1 ++ t2)
        | (Panic msg, st2, t2) => (Panic msg, st2, t1 ++ t2)
        | (Replaced, st2, t2) => (Replaced, st2, t1 ++ t2)
        end
    end.

(** Arithmetic of [int64]. *)
Definition wrap64 (z : Z) : Z :=
  ((z + 2 ^ 63) mod 2 ^ 64 - 2 ^ 63)%Z.

Definition rbind {A B : Type} (r : Res A) (f : A -> Res B) : Res B :=
  match r with
  | Ret a => f a
  | Panic msg => Panic msg
  | Replaced => Replaced
  end.

(** The three variables the loop of [verifySignature] fills in. *)
Record Scan : Type := {
  tree : string;
  key : string;
  sign : string
}.

Section Update.

Context {L : Libs}.
Variable env : Env.

(** *** [verifySignature]: the part after [git cat-file] *)

(** [for _, k := range validKeys { if strings.HasPrefix(k, keyid)
    { key = strings.Fields(k)[0]; break } }] *)
Fixpoint pickKey (validKeys : list string) (keyid : string) (key0 : string)
  : Res string :=
  match validKeys with
  | [] => Ret key0
  | k :: ks =>
      if strings.HasPrefix k keyid
      then index (strings.Fields k) 0
      else pickKey ks keyid key0
  end.

(** One turn of the loop over the lines of the commit. *)
Definition scanLine (validKeys : list string) (st : Scan) (l : string)
  : Res Scan :=
  if strings.HasPrefix l "tree " then
    Ret {| tree := strings.TrimSpace (strings.drop (String.length "tree ") l);
           key := key st;
           sign := sign st |}
  else if strings.HasPrefix l "satori-sign " then
    let s := strings.TrimSpace
               (strings.drop (String.length "satori-sign ") l) in
    let a := strings.Split s colon in
    rbind (index a 0) (fun keyid =>
    rbind (pickKey validKeys keyid (key st)) (fun key1 =>
    rbind (index a 1) (fun sign1 =>
    Ret {| tree := tree st; key := key1; sign := sign1 |})))
  else Ret st.

Fixpoint scanLines (validKeys : list string) (st : Scan)
         (lines : list string) : Res Scan :=
  match lines with
  | [] => Ret st
  | l :: rest =>
      rbind (scanLine validKeys st l) (fun st1 =>
      scanLines validKeys st1 rest)
  end.

(** From the three variables to the verdict: [None] is the nil error. *)
Definition checkScan (st : Scan) : option error :=
  if (tree st =? "")%string then Some "Can't find tree hash"
  else if (sign st =? "")%string then Some "Signature not found"
  else if (key st =? "")%string then Some "Signing key untrusted"
  else
    match base64_DecodeString (key st) with
    | inr err => Some err
    | inl vkslice =>
        let vk := copyInto 32 vkslice in
        match base64_DecodeString (sign st) with
        | inr err => Some err
        | inl signslice =>
            let s := copyInto 64 signslice in
            if negb (ed25519_Verify vk (bytesOf (tree st)) s)
            then Some "Signature invalid"
            else None
        end
    end.

Definition verifyContent (content : string) (validKeys : list string)
  : Res (option error) :=
  rbind (scanLines validKeys {| tree := ""; key := ""; sign := "" |}
                   (strings.Split content LF))
        (fun st => Ret (checkScan st)).

(** *** The helpers of the update *)

Definition timeNow : M Z :=
  fun st => (Ret (wrap64 (clock env (ticks st))),
             {| updateInflight := updateInflight st;
                lastPluginUpdate := lastPluginUpdate st;
                ticks := S (ticks st) |}, []).

Definition logPrintln (msg : string) : M unit := emit (Log msg).

Definition when (c : bool) (m : M unit) : M unit :=
  if c then m else ret tt.

(** Run a command: the event, then the answer of the outside world. *)
Definition run (e : Event) (r : CmdResult) : M CmdResult :=
  emit e ;;; ret r.

Definition reportFailure (subject desc : string) : M unit :=
  now <- timeNow ;;
  emit (SendToTransfer (Hostname env) (".satori.agent.plugin." +++ subject)
                       now desc).

Definition ensureGitRepo (path remote : string) : M (option error) :=
  if negb (IsExist env path) then
    logPrintln "Plugin repo does not exist, creating one" ;;;
    r <- run (GitInit path) (git_init env path) ;;
    match cmdErr r with
    | Some err =>
        ret (Some ("Can't init plugin repo: " +++ err +++ nl +++ cmdOut r))
    | None =>
        r <- run (GitRemoteAdd path remote) (git_remote_add env path remote) ;;
        match cmdErr r with
        | Some err =>
            emit (RemoveAll path) ;;;
            ret (Some ("Can't set repo remote, aborting: " +++ err))
        | None => ret None
        end
    end
  else ret None.

Definition updateByFetch (path : string) : M (option error) :=
  logPrintln "Begin update plugins" ;;;
  setInflight true ;;;
  defer (setInflight false)
    (now <- timeNow ;;
     setLast now ;;;
     r <- run (GitFetch path) (git_fetch env path) ;;
     match cmdErr r with
     | Some err =>
         ret (Some ("Update plugins by fetch error: " +++ err +++ nl
                    +++ cmdOut r))
     | None => ret None
     end).

Definition verifySignature (checkoutPath head : string)
           (validKeys : list string) : M (option error) :=
  r <- run (GitCatFile checkoutPath head) (git_cat_file env checkoutPath head) ;;
  match cmdErr r with
  | Some err =>
      ret (Some ("Can't get content of desired commit: " +++ err +++ nl
                 +++ cmdOut r))
  | None => lift (verifyContent (cmdOut r) validKeys)
  end.

(** The loop of [getAltSigningKeys] over the lines of the key file. *)
Definition keyLines (content : string) : list string :=
  fold_left
    (fun lst l =>
       let l := strings.TrimSpace l in
       if strings.HasPrefix l "#" || (l =? "")%string then lst
       else lst ++ [l])
    (strings.Split content LF) [].

(** The Go function returns a pair: the keys (nil with an error) and the
    error (nil with keys). *)
Definition getAltSigningKeys (checkoutPath head keyFile : string)
           (validKeys : list string) : M (list string * option error) :=
  let fullPath := path_Join checkoutPath keyFile in
  if negb (IsExist env fullPath) then
    ret ([], Some ("keyFile " +++ fullPath +++ " does not exist"))
  else
    r <- run (GitRevList checkoutPath head keyFile)
             (git_rev_list env checkoutPath head keyFile) ;;
    match cmdErr r with
    | Some err =>
        ret ([], Some ("Can't get most recent commit hash of key file: "
                       +++ err +++ nl +++ cmdOut r))
    | None =>
        let mostRecentHash := strings.TrimSpace (cmdOut r) in
        e <- verifySignature checkoutPath mostRecentHash validKeys ;;
        match e with
        | Some err => ret ([], Some err)
        | None =>
            emit (ReadKeyFile fullPath) ;;;
            match ReadFile env fullPath with
            | inr err => ret ([], Some err)
            | inl content => ret (keyLines content, None)
            end
        end
    end.

Definition checkoutCommit (checkoutPath head : string) : M (option error) :=
  r <- run (GitResetHard checkoutPath head)
           (git_reset_hard env checkoutPath head) ;;
  match cmdErr r with
  | Some err =>
      ret (Some ("git reset --hard failed: " +++ err +++ nl +++ cmdOut r))
  | None => ret None
  end.

(** *** [UpdatePlugin] *)

(** [if err := stage; err != nil { log.Println(err.Error());
    reportFailure(subject, err.Error()); return err }], and then the rest
    of the function. *)
Definition orFail (subject : string) (stage : M (option error))
           (rest : M (option error)) : M (option error) :=
  e <- stage ;;
  match e with
  | Some err =>
      logPrintln err ;;;
      reportFailure subject err ;;;
      ret (Some err)
  | None => rest
  end.

Fixpoint logAltKeys (altKeys : list string) : M unit :=
  match altKeys with
  | [] => ret tt
  | k :: ks => logPrintln ("Got alt key: [" +++ k +++ "]") ;;; logAltKeys ks
  end.

(** The value of [keys] when [verifySignature] is called on the target:
    lines 124 to 138. *)
Definition trustedKeys (ver : string) : M (list string) :=
  let debug := Debug (Config env) in
  let cfg := Plugin (Config env) in
  if negb (AltSigningKeysFile cfg =? "")%string then
    p <- getAltSigningKeys (CheckoutPath cfg) ver (AltSigningKeysFile cfg)
                           (SigningKeys cfg) ;;
    match snd p with
    | Some err =>
        logPrintln ("Failed to get alternative signing keys: " +++ err) ;;;
        reportFailure "alt-key-fail" err ;;;
        ret (SigningKeys cfg)
    | None =>
        when debug (logAltKeys (fst p)) ;;;
        ret (fst p ++ SigningKeys cfg)
    end
  else ret (SigningKeys cfg).

Definition verifyStage (ver : string) (rest : M (option error))
  : M (option error) :=
  let cfg := Plugin (Config env) in
  if (0 <? List.length (SigningKeys cfg))%nat then
    keys <- trustedKeys ver ;;
    orFail "signature-fail" (verifySignature (CheckoutPath cfg) ver keys) rest
  else
    logPrintln "Signing keys not configured, signature verification skipped" ;;;
    rest.

Definition UpdatePlugin (ver : string) : M (option error) :=
  let debug := Debug (Config env) in
  let cfg := Plugin (Config env) in
  if negb (Enabled cfg) then
    when debug (logPrintln "plugin not enabled, not updating") ;;;
    ret (Some "plugin not enabled")
  else
    inflight <- getInflight ;;
    if inflight then
      let s := "Previous update inflight, do nothing" in
      when debug (logPrintln s) ;;;
      ret (Some s)
    else
      now <- timeNow ;;
      last <- getLast ;;
      if (wrap64 (now - last) <? 300)%Z then
        let s := "Previous update too recent, do nothing" in
        when debug (logPrintln s) ;;;
        ret (Some s)
      else
        let parentDir := path_Dir (CheckoutPath cfg) in
        when (negb (IsExist env parentDir)) (emit (MkdirAll parentDir)) ;;;
        let ver := if (ver =? "")%string then "origin/master" else ver in
        orFail "git-fail" (ensureGitRepo (CheckoutPath cfg) (Git cfg))
        (orFail "git-fail" (updateByFetch (CheckoutPath cfg))
        (verifyStage ver
        (orFail "git-fail" (checkoutCommit (CheckoutPath cfg) ver)
        (logPrintln "Update plugins complete" ;;;
         ret None)))).

(** *** [TrySelfUpdate] *)

(** [os.Open] and then [io.Copy] into the hash. *)
Definition readWhole (path : string) : list byte + error :=
  match os_Open env path with
  | Some err => inr err
  | None => io_Copy env path
  end.

(** The script given to [bash -c], as it runs for plain paths
    ([plainPath] below: the shell passes them on unchanged, each as one
    word); the properties of the script are stated for such paths.
    [set -e] ends it at the first command that fails, and [cmd.Run()] then
    returns an error. *)
Definition selfUpdateScript (self rename new : string) : M (option error) :=
  if negb (sh_test_f env new) then ret (Some "exit status 1")
  else
    e <- (if sh_test_f env rename
          then emit (ShRemove rename) ;;; ret (sh_rm_f env rename)
          else ret None) ;;
    match e with
    | Some err => ret (Some err)
    | None =>
        emit (ShRename self rename) ;;;
        match sh_mv env self rename with
        | Some err => ret (Some err)
        | None =>
            emit (ShCopy new self) ;;;
            ret (sh_cp_a env new self)
        end
    end.

Definition TrySelfUpdate : M (option error) :=
  let debug := Debug (Config env) in
  let cfg := Config env in
  if negb (SelfUpdate cfg) then ret None
  else
    match Executable env with
    | inr err => ret (Some err)
    | inl selfPath =>
        let newPath := path_Join (CheckoutPath (Plugin cfg)) "satori-agent" in
        if negb (IsExist env newPath) then
          when debug (logPrintln ("SelfUpdate: Can't find new binary on path: "
                                  +++ newPath)) ;;;
          ret None
        else
          match readWhole selfPath with
          | inr err => ret (Some err)
          | inl self =>
              let selfHash := sha256_Sum self in
              match readWhole newPath with
              | inr err => ret (Some err)
              | inl new =>
                  let newHash := sha256_Sum new in
                  if bytes_Equal selfHash newHash then ret None
                  else
                    e <- selfUpdateScript
                           selfPath
                           (selfPath +++ "." +++ hex_EncodeToString selfHash)
                           newPath ;;
                    match e with
                    | Some err => ret (Some err)
                    | None =>
                        logPrintln "SelfUpdate triggered, restarting" ;;;
                        emit (Exec selfPath (Args env) (Environ env)) ;;;
                        match syscall_Exec env selfPath with
                        | None => lift Replaced
                        | Some _ => ret (Some "Can't do exec!")
                        end
                    end
              end
          end
    end.

End Update.

(** ** Implementations to run the model on examples *)

Module base64.

(** The value of a character of the standard alphabet. *)
Definition sextet (c : ascii) : option N :=
  let n := N_of_ascii c in
  if (65 <=? n)%N && (n <=? 90)%N then Some (n - 65)%N
  else if (97 <=? n)%N && (n <=? 122)%N then Some (n - 71)%N
  else if (48 <=? n)%N && (n <=? 57)%N then Some (n + 4)%N
  else if (n =? 43)%N then Some 62%N
  else if (n =? 47)%N then Some 63%N
  else None.

Definition isPad (c : ascii) : bool := Ascii.eqb c "="%char.

Definition isNewline (c : ascii) : bool :=
  let n := N_of_ascii c in ((n =? 10) || (n =? 13))%N.

Definition byteOfN (n : N) : byte := byte_of_ascii (ascii_of_N (N.land n 255)).

Definition isNil {A : Type} (l : list A) : bool :=
  match l with [] => true | _ :: _ => false end.

(** Groups of four characters, three bytes each; padding only in the
    last group, and nothing after it. *)
Fixpoint quanta (l : list ascii) : option (list byte) :=
  match l with
  | [] => Some []
  | c0 :: c1 :: c2 :: c3 :: rest =>
      match sextet c0, sextet c1 with
      | Some s0, Some s1 =>
          let hi := (N.shiftl s0 18 + N.shiftl s1 12)%N in
          match sextet c2, sextet c3 with
          | Some s2, Some s3 =>
              let val := (hi + N.shiftl s2 6 + s3)%N in
              option_map
                (fun r => byteOfN (N.shiftr val 16)
                          :: byteOfN (N.shiftr val 8) :: byteOfN val :: r)
                (quanta rest)
          | Some s2, None =>
              let val := (hi + N.shiftl s2 6)%N in
              if isPad c3 && isNil rest
              then Some [byteOfN (N.shiftr val 16); byteOfN (N.shiftr val 8)]
              else None
          | None, _ =>
              if isPad c2 && isPad c3 && isNil rest
              then Some [byteOfN (N.shiftr hi 16)]
              else None
          end
      | _, _ => None
      end
  | _ => None
  end.

(** The standard encoding with padding; carriage returns and newlines
    are skipped, trailing bits are not checked.  The byte offset of the
    error is left out of its message. *)
Definition DecodeString (s : string) : list byte + error :=
  match quanta (filter (fun c => negb (isNewline c)) (list_ascii_of_string s)) with
  | Some bs => inl bs
  | None => inr "illegal base64 data"
  end.

End base64.

Module Sample.

(** A stand-in for a signature scheme: the signature of [msg] under [pk]
    is [pk] followed by [msg], cut or zero-filled to 64 bytes. *)
Definition tagVerify (pk msg sg : list byte) : bool :=
  bytes_Equal sg (copyInto 64 (pk ++ msg)).

(** [path.Join] and [path.Dir] on clean paths. *)
Definition join (a c : string) : string := a +++ "/" +++ c.

Fixpoint dropLast (l : list ascii) : list ascii :=
  match l with
  | [] => []
  | c :: r => if Ascii.eqb c "/"%char then r else dropLast r
  end.

Definition dir (p : string) : string :=
  string_of_list_ascii (rev (dropLast (rev (list_ascii_of_string p)))).

Definition libs : Libs := {|
  base64_DecodeString := base64.DecodeString;
  ed25519_Verify := tagVerify;
  sha256_Sum := fun bs => bs;
  path_Join := join;
  path_Dir := dir
|}.

Definition treeHash : string := "4b825dc642cb6eb9a060e54bf8d69288fbee4904".

(** Three key entries (the key in base64, then a comment) and the
    signature records of [treeHash] under each. *)
Definition keyA : string :=
  "MDEyMzQ1Njc4OWFiY2RlZjAxMjM0NTY3ODlhYmNkZWY= ops".
Definition keyB : string :=
  "QUJDREVGR0hJSktMTU5PUFFSU1RVVldYWVphYmNkZWY= alt".
Definition keyC : string :=
  "QUJDREVGR0hJSktMTU5PUFFSU1RVVldYWVowMTIzNDU= release".

Definition signA : string :=
  "satori-sign MDEyMzQ1:MDEyMzQ1Njc4OWFiY2RlZjAxMjM0NTY3ODlhYmNkZWY0YjgyNWRjNjQyY2I2ZWI5YTA2MGU1NGJmOGQ2OTI4OA==".
Definition signB : string :=
  "satori-sign QUJDREVG:QUJDREVGR0hJSktMTU5PUFFSU1RVVldYWVphYmNkZWY0YjgyNWRjNjQyY2I2ZWI5YTA2MGU1NGJmOGQ2OTI4OA==".
Definition signC : string :=
  "satori-sign QUJDREVG:QUJDREVGR0hJSktMTU5PUFFSU1RVVldYWVowMTIzNDU0YjgyNWRjNjQyY2I2ZWI5YTA2MGU1NGJmOGQ2OTI4OA==".

Definition commit (records : list string) : string :=
  "tree " +++ treeHash +++ nl
  +++ "parent 9c6b057a2b9d96a4067a749ee3b3b0158d390cf1" +++ nl
  +++ "author dev <dev@example.org> 1480000000 +0800" +++ nl
  +++ "committer dev <dev@example.org> 1480000000 +0800" +++ nl
  +++ fold_right (fun r acc => r +++ nl +++ acc) "" records
  +++ nl +++ "update plugins" +++ nl.

(** A world: the repository is there, the fetch works, the key file
    [altkeys] lists [keyB], its last change is the commit [intro], the
    target is the commit [target]. *)
Definition ok (out : string) : CmdResult :=
  {| cmdErr := None; cmdOut := out |}.
Definition failed (err : string) : CmdResult :=
  {| cmdErr := Some err; cmdOut := "" |}.

Definition introRev : string := "5f2a9c0e7d1b4a6f8e3c2d1a0b9f8e7d6c5b4a39".

Definition config (primary : list string) (altFile : string)
  : GlobalConfig := {|
  Debug := false;
  Plugin := {| Enabled := true;
               CheckoutPath := "/opt/satori/plugin";
               Git := "https://git.example.org/plugin.git";
               SigningKeys := primary;
               AltSigningKeysFile := altFile |};
  SelfUpdate := true
|}.

Definition world (c : GlobalConfig) (intro target : string)
           (exe : string + error) (candidate : bool) (mv : option error)
  : Env := {|
  Config := c;
  Hostname := "node1";
  clock := fun n => (1480000000 + Z.of_nat n)%Z;
  IsExist := fun p =>
    if (p =? "/opt/satori/plugin/satori-agent")%string then candidate
    else true;
  git_init := fun _ => ok "";
  git_remote_add := fun _ _ => ok "";
  git_fetch := fun _ => ok "";
  git_cat_file := fun _ rev =>
    if (rev =? "origin/master")%string then ok target
    else if (rev =? introRev)%string then ok intro
    else failed "exit status 128";
  git_rev_list := fun _ _ _ => ok (introRev +++ nl);
  git_reset_hard := fun _ _ => ok "";
  ReadFile := fun _ => inl ("# alternate keys" +++ nl +++ keyB +++ nl);
  Executable := exe;
  os_Open := fun _ => None;
  io_Copy := fun p => inl (bytesOf p);
  sh_test_f := fun p => (p =? "/opt/satori/plugin/satori-agent")%string;
  sh_rm_f := fun _ => None;
  sh_mv := fun _ _ => mv;
  sh_cp_a := fun _ _ => None;
  Args := ["satori-agent"];
  Environ := [];
  syscall_Exec := fun _ => None
|}.

Definition start : State :=
  {| updateInflight := false; lastPluginUpdate := 0; ticks := 0 |}.

Definition selfPath : string := "/usr/bin/satori-agent".

(** The primary key is [keyC]; the key file, last changed by a commit
    signed with [keyC], lists [keyB].  Both keys begin with QUJDREVG. *)
Definition primarySigned : Env :=
  world (config [keyC] "altkeys") (commit [signC]) (commit [signC])
        (inl selfPath) true None.

Definition altSigned : Env :=
  world (config [keyC] "altkeys") (commit [signC]) (commit [signB])
        (inl selfPath) true None.

(** The last change of the key file is signed with [keyA], which is not a
    primary key; the target is signed with the primary key. *)
Definition introUntrusted : Env :=
  world (config [keyC] "altkeys") (commit [signA]) (commit [signC])
        (inl selfPath) true None.

(** No key file is configured; the target is signed with [keyA], which
    is not trusted. *)
Definition targetUntrusted : Env :=
  world (config [keyC] "") (commit [signC]) (commit [signA])
        (inl selfPath) true None.

(** The rename of the running binary fails. *)
Definition renameFails : Env :=
  world (config [keyC] "") "" "" (inl selfPath) true (Some "exit status 1").

(** The path of the running binary cannot be found, and there is no
    candidate. *)
Definition noExecutable : Env :=
  world (config [keyC] "") "" "" (inr "readlink /proc/self/exe: permission denied")
        false None.

(** A record without a colon, in a commit with a tree line and in one
    without. *)
Definition noColon : string :=
  "tree " +++ treeHash +++ nl +++ "satori-sign QUJDREVG" +++ nl.

Definition noTreeNoColon : string :=
  "parent 9c6b057a2b9d96a4067a749ee3b3b0158d390cf1" +++ nl
  +++ "satori-sign QUJDREVG" +++ nl.

(** The target is the commit [noColon]; no key file is configured. *)
Definition targetNoColon : Env :=
world (config [keyC] "") "" noColon (inl selfPath) true None.

(** A key and a signature of three bytes each. *)
Definition shortKey : string := "QUJD short".
Definition shortSigned : string :=
  "tree " +++ treeHash +++ nl +++ "satori-sign QUJD:QUJD" +++ nl.

End Sample.

(** ** Reading a run *)

Definition result {A : Type} (m : M A) (st : State) : Res A := fst (fst (m st)).
Definition final {A : Type} (m : M A) (st : State) : State := snd (fst (m st)).
Definition events {A : Type} (m : M A) (st : State) : list Obs := snd (m st).


(** The byte [c] does not occur in [s]. *)
Fixpoint freeOf (c : ascii) (s : string) : bool :=
  match s with
  | EmptyString => true
  | String x r => negb (Ascii.eqb x c) && freeOf c r
  end.

Definition isSignLine (l : string) : bool :=
  negb (strings.HasPrefix l "tree ") && strings.HasPrefix l "satori-sign ".

Definition isTreeLine (l : string) : bool := strings.HasPrefix l "tree ".

Definition isFetch (e : Event) : bool :=
  match e with GitFetch _ => true | _ => false end.

Definition isReset (e : Event) : bool :=
  match e with GitResetHard _ _ => true | _ => false end.

(** The renames and the copies among the events, in order. *)
Definition isRename (e : Event) : bool :=
  match e with ShRename _ _ => true | _ => false end.

Definition isCopy (e : Event) : bool :=
  match e with ShCopy _ _ => true | _ => false end.

Definition renames (t : list Obs) : list Event := filter isRename (map fst t).
Definition copies (t : list Obs) : list Event := filter isCopy (map fst t).

(** The event is a line of the log: nothing is changed on disk and no
    process image is loaded. *)
Definition isLog (e : Event) : bool :=
  match e with Log _ => true | _ => false end.

(** The event is not the checkout. *)
Definition NoReset (o : Obs) : Prop := isReset (fst o) = false.

(** No update is in flight. *)
Definition Idle (st : State) : Prop := updateInflight st = false.

(** The event is seen with the flag set exactly when it is the fetch. *)
Definition FetchOnly (o : Obs) : Prop := snd o = isFetch (fst o).

(** [Keeps I P m]: started in a state where [I] holds, [m] ends in a state
    where [I] holds, whatever the outcome, and every event it gives
    satisfies [P]. *)
Definition Keeps {A : Type} (I : State -> Prop) (P : Obs -> Prop) (m : M A)
  : Prop :=
  forall st, I st -> I (final m st) /\ Forall P (events m st).

(** The call returns the error [err] and has not run the checkout. *)
Definition Stops (err : error) (m : M (option error)) (st : State) : Prop :=
  result m st = Ret (Some err) /\ Forall NoReset (events m st).

(** ** Paths the shell passes on unchanged *)

(** The script of [TrySelfUpdate] writes the paths between double quotes
    and then expands [$SELF], [$RENAME] and [$NEW] without quotes.  A path
    made of the characters below, not empty and not beginning with a dash,
    goes through both unchanged and as one word: no expansion inside the
    quotes, no word splitting, no pattern, no option of [rm], [mv] or
    [cp]. *)
Definition isPlainChar (c : ascii) : bool :=
  let n := N_of_ascii c in
  ((48 <=? n)%N && (n <=? 57)%N)
  || ((65 <=? n)%N && (n <=? 90)%N)
  || ((97 <=? n)%N && (n <=? 122)%N)
  || existsb (Ascii.eqb c) (list_ascii_of_string "/._-+,:@%=").

Fixpoint allPlain (s : string) : bool :=
  match s with
  | EmptyString => true
  | String c r => isPlainChar c && allPlain r
  end.

Definition plainPath (p : string) : bool :=
  match p with
  | EmptyString => false
  | String c _ => negb (Ascii.eqb c "-"%char) && allPlain p
  end.

(** ** Further readings of a commit text and of a run *)

(** The line is a signature record. *)
Definition isRecordLine (l : string) : bool :=
  strings.HasPrefix l "satori-sign ".

(** The trimmed line of the key file is kept as a key entry. *)
Definition isKeyEntry (l : string) : bool :=
  negb (strings.HasPrefix l "#" || (l =? "")%string).

(** The event belongs to the signature check: reading a commit, finding
    the last change of the key file, reading the key file. *)
Definition isVerifyEvent (e : Event) : bool :=
  match e with
  | GitCatFile _ _ | GitRevList _ _ _ | ReadKeyFile _ => true
  | _ => false
  end.

(** ** The calls beside the update: [GetCurrentPluginVersion] and
    [ForceResetPlugin] *)

(** [cmd.Run()] with one buffer for each output. *)
Record RunResult : Type := {
  runErr : option error;
  runStdout : string;
  runStderr : string
}.

(** The answers of git to the two commands of these calls. *)
Record RepoEnv : Type := {
  git_rev_parse_HEAD : string -> RunResult;
  git_reset_hard_worktree : string -> CmdResult
}.

(** Their events: those of [reportFailure], and the two commands. *)
Inductive RepoEvent : Type :=
| UpdateEvent (e : Event)
| GitRevParseHead (dir : string)
| GitResetHardWorktree (dir : string).

Definition liftEvents (t : list Obs) : list (RepoEvent * bool) :=
  map (fun o => (UpdateEvent (fst o), snd o)) t.

(** The Go function returns the version and the error. *)
Definition GetCurrentPluginVersion (env : Env) (repo : RepoEnv) (st : State)
  : (string * option error) * State * list (RepoEvent * bool) :=
  let cfg := Plugin (Config env) in
  if negb (Enabled cfg) then (("", Some "plugin-not-enabled"), st, [])
  else
    let pluginDir := CheckoutPath cfg in
    if negb (IsExist env pluginDir) then
      let '(_, st1, t) :=
        reportFailure env "plugin-dir-does-not-exist" "" st in
      (("", Some "plugin-dir-does-not-exist"), st1, liftEvents t)
    else
      let r := git_rev_parse_HEAD repo pluginDir in
      let ev := (GitRevParseHead pluginDir, updateInflight st) in
      match runErr r with
      | Some err =>
          let '(_, st1, t) :=
            reportFailure env "git-fail" (err +++ nl +++ runStderr r) st in
          (("", Some err), st1, ev :: liftEvents t)
      | None => ((strings.TrimSpace (runStdout r), None), st, [ev])
      end.

Definition ForceResetPlugin (env : Env) (repo : RepoEnv) (st : State)
  : option error * State * list (RepoEvent * bool) :=
  let cfg := Plugin (Config env) in
  if negb (Enabled cfg) then (Some "plugin not enabled", st, [])
  else
    let dir := CheckoutPath cfg in
    if IsExist env dir then
      let r := git_reset_hard_worktree repo dir in
      let ev := (GitResetHardWorktree dir, updateInflight st) in
      match cmdErr r with
      | Some err =>
          (Some ("git reset --hard failed: " +++ err +++ nl +++ cmdOut r),
           st, [ev])
      | None => (None, st, [ev])
      end
    else (None, st, []).

(** The commands among the events of these calls. *)
Definition isRepoCommand (e : RepoEvent) : bool :=
  match e with
  | GitRevParseHead _ | GitResetHardWorktree _ => true
  | UpdateEvent _ => false
  end.

(** * Properties *)

(** ** The string functions on examples *)

Example TrimSpace_ex :
  strings.TrimSpace ("  ab c" +++ nl +++ " ") = "ab c".
Proof. reflexivity. Qed.

Example Fields_ex :
  strings.Fields " key1  comment here " = ["key1"; "comment"; "here"].
Proof. reflexivity. Qed.

Example Fields_blank : strings.Fields "   " = [].
Proof. reflexivity. Qed.

Example Split_ex : strings.Split "a:b:" colon = ["a"; "b"; ""].
Proof. reflexivity. Qed.

Example Split_nocolon : strings.Split "abc" colon = ["abc"].
Proof. reflexivity. Qed.

Example Split_empty : strings.Split "" colon = [""].
Proof. reflexivity. Qed.

(** ** Splitting and joining lines *)

Lemma string_of_list_ascii_app (l1 l2 : list ascii) :
  string_of_list_ascii (l1 ++ l2)
  = string_of_list_ascii l1 +++ string_of_list_ascii l2.
Proof.
  induction l1 as [|c l1 IH]; simpl; [reflexivity | now rewrite IH].
Qed.

Lemma append_assoc (a c d : string) : (a +++ c) +++ d = a +++ (c +++ d).
Proof.
  induction a as [|x a IH]; simpl; [reflexivity | now rewrite IH].
Qed.

Lemma append_nil_r (a : string) : a +++ "" = a.
Proof.
  induction a as [|x a IH]; simpl; [reflexivity | now rewrite IH].
Qed.

Lemma splitFrom_last (sep : ascii) (a : string) :
  forall cur, freeOf sep a = true ->
    strings.splitFrom sep cur a = [string_of_list_ascii (rev cur) +++ a].
Proof.
  induction a as [|x a IH]; intros cur Hfree; simpl in *.
  - now rewrite append_nil_r.
  - apply andb_true_iff in Hfree as [Hx Ha].
    apply negb_true_iff in Hx. rewrite Hx.
    rewrite IH by assumption. simpl.
    rewrite string_of_list_ascii_app, append_assoc. reflexivity.
Qed.



(** ** The scan of the commit text *)

Section Scanning.

Context {L : Libs}.

Lemma index_not_replaced {A : Type} (a : list A) (i : nat) :
  index a i <> Replaced.
Proof. unfold index. destruct (nth_error a i); discriminate. Qed.

Lemma pickKey_not_replaced (keys : list string) (keyid key0 : string) :
  pickKey keys keyid key0 <> Replaced.
Proof.
  induction keys as [|k ks IH]; simpl; [discriminate|].
  destruct (strings.HasPrefix k keyid); [apply index_not_replaced | exact IH].
Qed.

(** The key loop on a concatenation: the first list is searched first,
    the second one only if nothing in the first has the prefix. *)
Lemma pickKey_app (ks1 ks2 : list string) (keyid key0 : string) :
  pickKey (ks1 ++ ks2) keyid key0
  = if existsb (fun k => strings.HasPrefix k keyid) ks1
    then pickKey ks1 keyid key0
    else pickKey ks2 keyid key0.
Proof.
  induction ks1 as [|k ks IH]; simpl; [reflexivity|].
  destruct (strings.HasPrefix k keyid); simpl; [reflexivity | exact IH].
Qed.


Lemma scanLines_app (keys : list string) (pre post : list string) :
  forall st,
    scanLines keys st (pre ++ post)
    = rbind (scanLines keys st pre) (fun st1 => scanLines keys st1 post).
Proof.
  induction pre as [|l pre IH]; intros st; simpl; [reflexivity|].
  destruct (scanLine keys st l); simpl; auto.
Qed.


(** Lines that are not tree lines leave [tree] alone. *)
Lemma scanLines_no_tree (keys : list string) (lines : list string) :
  forall st st1,
    forallb (fun l => negb (isTreeLine l)) lines = true ->
    scanLines keys st lines = Ret st1 ->
    tree st1 = tree st.
Proof.
  induction lines as [|l rest IH]; intros st st1 Hno H; simpl in *.
  - now injection H as <-.
  - apply andb_true_iff in Hno as [Hl Hrest].
    apply negb_true_iff in Hl. unfold isTreeLine in Hl.
    destruct (scanLine keys st l) as [st0| |] eqn:E; simpl in H;
      try discriminate.
    rewrite (IH _ _ Hrest H).
    unfold scanLine in E. rewrite Hl in E.
    destruct (strings.HasPrefix l "satori-sign ").
    + destruct (index _ 0); simpl in E; try discriminate.
      destruct (pickKey _ _ _); simpl in E; try discriminate.
      destruct (index _ 1); simpl in E; try discriminate.
      now injection E as <-.
    + now injection E as <-.
Qed.

End Scanning.

(** ** Runs and invariants of runs *)

Lemma run_eq {A : Type} (m : M A) (st : State) :
  m st = (result m st, final m st, events m st).
Proof. unfold result, final, events. now destruct (m st) as [[r s] t]. Qed.

Lemma bind_run {A B : Type} (m : M A) (f : A -> M B) (st : State) (a : A) :
  result m st = Ret a ->
  bind m f st
  = (result (f a) (final m st), final (f a) (final m st),
     events m st ++ events (f a) (final m st)).
Proof.
  intros H. unfold bind. rewrite (run_eq m st), H.
  now rewrite (run_eq (f a) (final m st)).
Qed.

Section Keeping.

Variable I : State -> Prop.
Variable P : Obs -> Prop.

(** [I] looks at [updateInflight] only. *)
Hypothesis I_flag :
  forall st st', updateInflight st' = updateInflight st -> I st -> I st'.

Lemma keeps_ret {A : Type} (a : A) : Keeps I P (ret a).
Proof. intros st H. split; [exact H | constructor]. Qed.

Lemma keeps_lift {A : Type} (r : Res A) : Keeps I P (lift r).
Proof. intros st H. split; [exact H | constructor]. Qed.

Lemma keeps_bind {A B : Type} (m : M A) (f : A -> M B) :
  Keeps I P m -> (forall a, Keeps I P (f a)) -> Keeps I P (bind m f).
Proof.
  intros Hm Hf st H. destruct (Hm st H) as [H1 H2].
  unfold final, events, bind in *.
  destruct (m st) as [[r s1] t1]; simpl in *.
  destruct r as [a| |]; simpl; auto.
  destruct (Hf a s1 H1) as [H3 H4]. unfold final, events in *.
  destruct (f a s1) as [[r2 s2] t2]; simpl in *.
  split; [assumption | apply Forall_app; auto].
Qed.

Lemma keeps_emit (e : Event) :
  (forall st, I st -> P (e, updateInflight st)) -> Keeps I P (emit e).
Proof. intros He st H. split; [exact H | repeat constructor; auto]. Qed.

Lemma keeps_getInflight : Keeps I P getInflight.
Proof. intros st H. split; [exact H | constructor]. Qed.

Lemma keeps_getLast : Keeps I P getLast.
Proof. intros st H. split; [exact H | constructor]. Qed.

Lemma keeps_setLast (v : Z) : Keeps I P (setLast v).
Proof.
  intros st H. unfold final, events. simpl. split; [|constructor].
  apply I_flag with (st := st); [reflexivity | exact H].
Qed.

Lemma keeps_timeNow (env : Env) : Keeps I P (timeNow env).
Proof.
  intros st H. unfold final, events. simpl. split; [|constructor].
  apply I_flag with (st := st); [reflexivity | exact H].
Qed.

End Keeping.

(** Goals [Keeps I P m] for a program [m] made of the pieces above; the
    conditions on the events are left to [side]. *)
Ltac keeps_step side :=
  first
    [ solve [eauto 2]
    | lazymatch goal with
      | |- Keeps _ _ (bind _ _) => apply keeps_bind; [|intros ?]
      | |- Keeps _ _ (ret _) => apply keeps_ret
      | |- Keeps _ _ (lift _) => apply keeps_lift
      | |- Keeps _ _ (emit _) => apply keeps_emit; side
      | |- Keeps _ _ getInflight => apply keeps_getInflight
      | |- Keeps _ _ getLast => apply keeps_getLast
      | |- Keeps _ _ (setLast _) => apply keeps_setLast; side
      | |- Keeps _ _ (timeNow _) => apply keeps_timeNow; side
      | |- Keeps _ _ (match ?x with _ => _ end) => destruct x
      end ].

Ltac keeps side := cbv zeta; repeat (keeps_step side; cbv zeta).

(** ** The in-flight flag along a run *)

Section Flag.

Context {L : Libs}.
Variable env : Env.

Ltac flag_side :=
  solve [ intros; unfold Idle, FetchOnly in *; simpl in *; congruence ].

Lemma updateByFetch_flag (path : string) :
  Keeps Idle FetchOnly (updateByFetch env path).
Proof.
  intros st H. unfold Idle in H.
  unfold updateByFetch, final, events, bind, defer, logPrintln, emit,
    setInflight, timeNow, setLast, run, ret.
  simpl. rewrite H.
  destruct (cmdErr (git_fetch env path)); simpl;
    (split; [reflexivity | repeat constructor]).
Qed.

Lemma logAltKeys_flag (ks : list string) :
  Keeps Idle FetchOnly (logAltKeys ks).
Proof.
  induction ks as [|k ks IH]; simpl; unfold logPrintln; keeps flag_side.
Qed.

Lemma UpdatePlugin_flag (ver : string) :
  Keeps Idle FetchOnly (UpdatePlugin env ver).
Proof.
  pose proof updateByFetch_flag as Hfetch.
  pose proof logAltKeys_flag as Hlog.
  unfold UpdatePlugin, verifyStage, trustedKeys, orFail, checkoutCommit,
    getAltSigningKeys, verifySignature, ensureGitRepo, reportFailure,
    when, run, logPrintln.
  keeps flag_side.
Qed.

End Flag.

(** C3, as it holds.  In every run of [UpdatePlugin] the flag
    [updateInflight] is set only while [updateByFetch] runs: the fetch is
    the one event seen with the flag set in a run that starts with the flag
    clear, so the key resolution ([GitRevList], [ReadKeyFile]), the
    signature checks ([GitCatFile]) and the checkout ([GitResetHard]) are
    seen with the flag clear; and the flag is clear when the call ends,
    whatever its outcome.  (A call that starts with the flag set is turned
    away and leaves it set.) *)
Theorem C3_inflight_only_during_fetch {L : Libs} (env : Env) (ver : string)
        (st : State) :
  updateInflight (final (UpdatePlugin env ver) st) = updateInflight st /\
  forall e b, In (e, b) (events (UpdatePlugin env ver) st) ->
              b = isFetch e || updateInflight st.
Proof.
  destruct (updateInflight st) eqn:F.
  - unfold UpdatePlugin, final, events, bind, getInflight, when, logPrintln,
      emit, ret.
    destruct (Enabled (Plugin (Config env))), (Debug (Config env));
      simpl; rewrite ?F; simpl; rewrite ?F;
      (split; [reflexivity|]); intros e b H; simpl in H;
      repeat (destruct H as [H|H]; [injection H as <- <-; reflexivity|]);
      contradiction.
  - pose proof (UpdatePlugin_flag env ver) as K.
    destruct (K st F) as [H1 H2].
    split; [exact H1|].
    intros e b H. rewrite Forall_forall in H2.
    apply H2 in H. unfold FetchOnly in H. simpl in H.
    now rewrite orb_false_r.
Qed.

(** C3, as stated, fails: in a run that goes through to a successful
    checkout, the fetch is seen with the flag set, and the resolution of
    the alternate keys, both signature checks and the checkout are seen
    with the flag already clear. *)
Lemma C3_flag_clear_after_fetch :
  events (UpdatePlugin (L := Sample.libs) Sample.altSigned "") Sample.start
  = [ (Log "Begin update plugins", false);
      (GitFetch "/opt/satori/plugin", true);
      (GitRevList "/opt/satori/plugin" "origin/master" "altkeys", false);
      (GitCatFile "/opt/satori/plugin" Sample.introRev, false);
      (ReadKeyFile "/opt/satori/plugin/altkeys", false);
      (GitCatFile "/opt/satori/plugin" "origin/master", false);
      (GitResetHard "/opt/satori/plugin" "origin/master", false);
      (Log "Update plugins complete", false) ]
  /\ result (UpdatePlugin (L := Sample.libs) Sample.altSigned "") Sample.start
     = Ret None.
Proof. split; vm_compute; reflexivity. Qed.

(** ** The signature record and the trusted keys *)

Section Verify.

Context {L : Libs}.

(** A record line with no colon in it stops the scan with a panic. *)
Lemma scanLine_no_colon (keys : list string) (st : Scan) (l : string) :
  isSignLine l = true ->
  freeOf colon (strings.TrimSpace
                  (strings.drop (String.length "satori-sign ") l)) = true ->
  exists msg, scanLine keys st l = Panic msg.
Proof.
  unfold isSignLine, scanLine. intros Hl Hfree.
  apply andb_true_iff in Hl as [Ht Hs]. apply negb_true_iff in Ht.
  rewrite Ht, Hs. unfold strings.Split.
  rewrite splitFrom_last by exact Hfree. simpl.
  destruct (pickKey keys _ (key st)) as [k| |] eqn:E; simpl.
  - eexists; reflexivity.
  - eexists; reflexivity.
  - now apply pickKey_not_replaced in E.
Qed.

Lemma scanLines_panic (keys : list string) (pre post : list string)
      (l : string) :
  forall st,
    (forall st0, exists msg, scanLine keys st0 l = Panic msg) ->
    scanLines keys st pre <> Replaced ->
    exists msg, scanLines keys st (pre ++ l :: post) = Panic msg.
Proof.
  intros st Hl Hpre. rewrite scanLines_app.
  destruct (scanLines keys st pre) as [st0| |]; simpl.
  - destruct (Hl st0) as [msg ->]. simpl. eexists; reflexivity.
  - eexists; reflexivity.
  - congruence.
Qed.

Lemma scanLine_not_replaced (keys : list string) (st : Scan) (l : string) :
  scanLine keys st l <> Replaced.
Proof.
  unfold scanLine.
  destruct (strings.HasPrefix l "tree "); [discriminate|].
  destruct (strings.HasPrefix l "satori-sign "); [|discriminate].
  destruct (index _ 0) as [keyid| |] eqn:E0; simpl; try discriminate.
  - destruct (pickKey keys keyid (key st)) as [k| |] eqn:Ek; simpl;
      try discriminate.
    + destruct (index _ 1) eqn:E1; simpl; try discriminate.
      now apply index_not_replaced in E1.
    + now apply pickKey_not_replaced in Ek.
  - now apply index_not_replaced in E0.
Qed.

Lemma scanLines_not_replaced (keys : list string) (lines : list string) :
  forall st, scanLines keys st lines <> Replaced.
Proof.
  induction lines as [|l rest IH]; intros st; simpl; [discriminate|].
  destruct (scanLine keys st l) eqn:E; simpl; auto; try discriminate.
  now apply scanLine_not_replaced in E.
Qed.

(** When the scan of a text with no tree line ends without a panic, the
    verdict is the missing tree hash. *)
Lemma no_tree_line_verdict (content : string) (keys : list string)
      (o : option error) :
  forallb (fun l => negb (isTreeLine l)) (strings.Split content LF) = true ->
  verifyContent content keys = Ret o ->
  o = Some "Can't find tree hash".
Proof.
  unfold verifyContent. intros Hno H.
  destruct (scanLines keys _ _) as [st| |] eqn:E; simpl in H;
    try discriminate.
  apply scanLines_no_tree in E; [|exact Hno]. simpl in E.
  injection H as <-. unfold checkScan. now rewrite E.
Qed.

End Verify.

(** C1, as it holds.  When the alternate keys were resolved, the list given
    to [verifySignature] for the target is the alternate keys followed by
    the configured ones, so the key loop tries the alternate keys first: a
    keyid that is a prefix of some alternate key selects among the
    alternate keys, whether or not a configured key has the prefix too, and
    the configured keys are searched only when no alternate key has the
    prefix. *)
Theorem C1_alternate_keys_matched_first {L : Libs} (env : Env)
        (ver : string) (st : State) (altKeys : list string)
        (keyid key0 : string) :
  let cfg := Plugin (Config env) in
  AltSigningKeysFile cfg <> "" ->
  result (getAltSigningKeys env (CheckoutPath cfg) ver
            (AltSigningKeysFile cfg) (SigningKeys cfg)) st
  = Ret (altKeys, None) ->
  result (trustedKeys env ver) st = Ret (altKeys ++ SigningKeys cfg) /\
  pickKey (altKeys ++ SigningKeys cfg) keyid key0
  = if existsb (fun k => strings.HasPrefix k keyid) altKeys
    then pickKey altKeys keyid key0
    else pickKey (SigningKeys cfg) keyid key0.
Proof.
  intros cfg Hfile Halt. split; [|apply pickKey_app].
  unfold trustedKeys. fold cfg.
  apply String.eqb_neq in Hfile. rewrite Hfile. simpl.
  unfold result at 1. rewrite (bind_run _ _ _ Halt). simpl.
  assert (Hlog : forall ks s, result (logAltKeys ks) s = Ret tt).
  { induction ks as [|k ks IH]; intros s; [reflexivity|].
    simpl. unfold result, bind, logPrintln, emit. simpl.
    specialize (IH s). unfold result in IH.
    destruct (logAltKeys ks s) as [[r s1] t1]. simpl in *. now subst r. }
  unfold when. destruct (Debug (Config env)).
  - unfold result at 1. rewrite (bind_run _ _ _ (Hlog _ _)). reflexivity.
  - reflexivity.
Qed.

(** C1, at a concrete world: the configured key is [keyC], the key file
    was resolved to [keyB]. *)
Lemma C1_alternate_keys_matched_first_witness :
  result (trustedKeys (L := Sample.libs) Sample.primarySigned "origin/master")
         Sample.start
  = Ret ([Sample.keyB] ++ [Sample.keyC]) /\
  pickKey ([Sample.keyB] ++ [Sample.keyC]) "QUJDREVG" ""
  = if existsb (fun k => strings.HasPrefix k "QUJDREVG") [Sample.keyB]
    then pickKey [Sample.keyB] "QUJDREVG" ""
    else pickKey [Sample.keyC] "QUJDREVG" "".
Proof.
  apply (C1_alternate_keys_matched_first (L := Sample.libs)
           Sample.primarySigned "origin/master" Sample.start).
  - discriminate.
  - vm_compute. reflexivity.
Defined.

(** C1, as stated, fails.  The keyid QUJDREVG is a prefix of the
    configured key [keyC] and of the alternate key [keyB]; the list used
    for the target is [keyB; keyC], the loop selects the alternate key, and
    the target, signed with the configured key, is turned down. *)
Lemma C1_alternate_key_shadows_primary :
  strings.HasPrefix Sample.keyC "QUJDREVG" = true /\
  strings.HasPrefix Sample.keyB "QUJDREVG" = true /\
  SigningKeys (Plugin (Config Sample.primarySigned)) = [Sample.keyC] /\
  result (trustedKeys (L := Sample.libs) Sample.primarySigned "origin/master")
         Sample.start
  = Ret [Sample.keyB; Sample.keyC] /\
  pickKey [Sample.keyB; Sample.keyC] "QUJDREVG" ""
  = index (strings.Fields Sample.keyB) 0 /\
  pickKey [Sample.keyB; Sample.keyC] "QUJDREVG" ""
  <> index (strings.Fields Sample.keyC) 0 /\
  verifyContent (L := Sample.libs)
    (Sample.commit [Sample.signC]) [Sample.keyC] = Ret None /\
  result (UpdatePlugin (L := Sample.libs) Sample.primarySigned "") Sample.start
  = Ret (Some "Signature invalid").
Proof.
  repeat split; try (vm_compute; reflexivity).
  vm_compute. discriminate.
Qed.

(** C2, at the failing input: a commit whose record line has no colon.
    Whatever the trusted keys and the libraries, [verifySignature] does not
    return an error there: it panics, at [a[1]]. *)
Theorem C2_record_without_colon_panics {L : Libs} (validKeys : list string) :
  exists msg, verifyContent Sample.noColon validKeys = Panic msg.
Proof.
  unfold verifyContent.
  change (strings.Split Sample.noColon LF)
    with (["tree " +++ Sample.treeHash] ++ "satori-sign QUJDREVG" :: [""]).
  destruct (scanLines_panic validKeys ["tree " +++ Sample.treeHash] [""]
              "satori-sign QUJDREVG"
              {| tree := ""; key := ""; sign := "" |}) as [msg E].
  - intros st0. now apply scanLine_no_colon.
  - apply scanLines_not_replaced.
  - rewrite E. simpl. eexists; reflexivity.
Qed.

(** The same commit as the target of an update: the fetch has run, the
    flag is clear again, and the call ends in the panic; no error is
    returned and nothing is reported. *)
Example UpdatePlugin_panics_on_record_without_colon :
  UpdatePlugin (L := Sample.libs) Sample.targetNoColon "" Sample.start
  = (Panic "runtime error: index out of range",
     {| updateInflight := false;
        lastPluginUpdate := 1480000001;
        ticks := 2 |},
     [ (Log "Begin update plugins", false);
       (GitFetch "/opt/satori/plugin", true);
       (GitCatFile "/opt/satori/plugin" "origin/master", false) ]).
Proof. vm_compute. reflexivity. Qed.

(** C7, at the failing input: a commit with no tree line, whose record
    line has no colon.  [verifySignature] does not return the missing tree
    hash error there: it panics in the loop, before the check of [tree]. *)
Theorem C7_no_tree_line_panics {L : Libs} (validKeys : list string) :
  forallb (fun l => negb (isTreeLine l))
          (strings.Split Sample.noTreeNoColon LF) = true /\
  exists msg, verifyContent Sample.noTreeNoColon validKeys = Panic msg.
Proof.
  split; [reflexivity|].
  unfold verifyContent.
  change (strings.Split Sample.noTreeNoColon LF)
    with (["parent 9c6b057a2b9d96a4067a749ee3b3b0158d390cf1"]
            ++ "satori-sign QUJDREVG" :: [""]).
  destruct (scanLines_panic validKeys
              ["parent 9c6b057a2b9d96a4067a749ee3b3b0158d390cf1"] [""]
              "satori-sign QUJDREVG"
              {| tree := ""; key := ""; sign := "" |}) as [msg E].
  - intros st0. now apply scanLine_no_colon.
  - apply scanLines_not_replaced.
  - rewrite E. simpl. eexists; reflexivity.
Qed.




(** C10.  Once the scan has found a tree hash, a signature and a key, and
    both decode from base64, the verdict is that of [ed25519.Verify] on the
    decoded key cut to 32 bytes or filled with zeros up to 32, and on the
    decoded signature cut to 64 bytes or filled with zeros up to 64: the
    number of decoded bytes is never a reason to turn the input down. *)
Theorem C10_decoded_bytes_are_padded_or_cut {L : Libs}
        (content : string) (validKeys : list string) (st : Scan)
        (vkslice signslice : list byte) :
  scanLines validKeys {| tree := ""; key := ""; sign := "" |}
            (strings.Split content LF) = Ret st ->
  tree st <> "" -> sign st <> "" -> key st <> "" ->
  base64_DecodeString (key st) = inl vkslice ->
  base64_DecodeString (sign st) = inl signslice ->
  verifyContent content validKeys
  = Ret (if ed25519_Verify
              (firstn 32 vkslice ++ repeat x00 (32 - List.length vkslice))
              (bytesOf (tree st))
              (firstn 64 signslice ++ repeat x00 (64 - List.length signslice))
         then None
         else Some "Signature invalid").
Proof.
  intros Hscan Ht Hs Hk Hvk Hsg.
  unfold verifyContent. rewrite Hscan. simpl. f_equal.
  unfold checkScan.
  apply String.eqb_neq in Ht, Hs, Hk. rewrite Ht, Hs, Hk, Hvk, Hsg.
  unfold copyInto. now destruct (ed25519_Verify _ _ _).
Qed.

(** C10, at a key and a signature of three bytes each: the check runs on
    the three bytes followed by 29 and by 61 zeros. *)
Lemma C10_decoded_bytes_are_padded_or_cut_witness :
  verifyContent (L := Sample.libs) Sample.shortSigned [Sample.shortKey]
  = Ret (if Sample.tagVerify
              (firstn 32 ["A"; "B"; "C"]%byte
                 ++ repeat x00 (32 - List.length ["A"; "B"; "C"]%byte))
              (bytesOf Sample.treeHash)
              (firstn 64 ["A"; "B"; "C"]%byte
                 ++ repeat x00 (64 - List.length ["A"; "B"; "C"]%byte))
         then None
         else Some "Signature invalid").
Proof.
  apply (C10_decoded_bytes_are_padded_or_cut (L := Sample.libs)
           Sample.shortSigned [Sample.shortKey]
           (st := {| tree := Sample.treeHash; key := "QUJD"; sign := "QUJD" |})).
  - vm_compute. reflexivity.
  - discriminate.
  - discriminate.
  - discriminate.
  - vm_compute. reflexivity.
  - vm_compute. reflexivity.
Defined.

(** ** Alternate keys *)

(** C4.  When the key file is there and [git rev-list -1] names the last
    revision, at or before [head], that changed it, and [verifySignature]
    of that revision against the keys given by the caller (the configured
    keys, at the one call site) returns an error, [getAltSigningKeys]
    returns that error and no keys, and does not read the key file.
    Nothing is assumed of the commit [head] itself. *)
Theorem C4_no_keys_when_introducing_revision_fails {L : Libs} (env : Env)
        (checkoutPath head keyFile : string) (primaryKeys : list string)
        (st : State) (err : error) :
  let introducing :=
    strings.TrimSpace (cmdOut (git_rev_list env checkoutPath head keyFile)) in
  IsExist env (path_Join checkoutPath keyFile) = true ->
  cmdErr (git_rev_list env checkoutPath head keyFile) = None ->
  result (verifySignature env checkoutPath introducing primaryKeys) st
  = Ret (Some err) ->
  result (getAltSigningKeys env checkoutPath head keyFile primaryKeys) st
  = Ret ([], Some err) /\
  forall p b,
    ~ In (ReadKeyFile p, b)
         (events (getAltSigningKeys env checkoutPath head keyFile primaryKeys)
                 st).
Proof.
  intros introducing Hfile Hrev Hver.
  assert (Hrun :
    getAltSigningKeys env checkoutPath head keyFile primaryKeys st
    = (Ret ([], Some err),
       final (verifySignature env checkoutPath introducing primaryKeys) st,
       (GitRevList checkoutPath head keyFile, updateInflight st)
         :: events (verifySignature env checkoutPath introducing primaryKeys)
                   st)).
  { unfold getAltSigningKeys. rewrite Hfile. simpl negb. cbv iota zeta.
    unfold bind, run, bind, emit, ret. simpl. rewrite Hrev.
    fold introducing.
    rewrite (run_eq (verifySignature env checkoutPath introducing primaryKeys)
                    st), Hver.
    simpl. now rewrite app_nil_r. }
  unfold result, events at 1. rewrite Hrun. simpl.
  split; [reflexivity|].
  intros p b H. destruct H as [H|H]; [discriminate|].
  unfold events, verifySignature, bind, run, bind, emit, ret, lift in H.
  simpl in H.
  destruct (cmdErr (git_cat_file env checkoutPath introducing));
    [|destruct (verifyContent _ _)];
    simpl in H; destruct H as [H|H]; try discriminate; contradiction.
Qed.

(** C4, at a world where the last change of the key file is signed with a
    key that is not configured, and the target with the configured key. *)
Lemma C4_no_keys_when_introducing_revision_fails_witness :
  verifyContent (L := Sample.libs)
    (cmdOut (git_cat_file Sample.introUntrusted "/opt/satori/plugin"
                          "origin/master"))
    [Sample.keyC] = Ret None /\
  (result (getAltSigningKeys (L := Sample.libs) Sample.introUntrusted
             "/opt/satori/plugin" "origin/master" "altkeys" [Sample.keyC])
          Sample.start
   = Ret ([], Some "Signing key untrusted") /\
   forall p b,
     ~ In (ReadKeyFile p, b)
          (events (getAltSigningKeys (L := Sample.libs) Sample.introUntrusted
                     "/opt/satori/plugin" "origin/master" "altkeys"
                     [Sample.keyC])
                  Sample.start)).
Proof.
  split; [vm_compute; reflexivity|].
  apply (C4_no_keys_when_introducing_revision_fails (L := Sample.libs)
           Sample.introUntrusted "/opt/satori/plugin" "origin/master"
           "altkeys" [Sample.keyC] Sample.start).
  - reflexivity.
  - reflexivity.
  - vm_compute. reflexivity.
Defined.

(** ** The guards of [UpdatePlugin] *)

Lemma wrap64_small (z : Z) : (0 <= z < 300)%Z -> wrap64 z = z.
Proof.
  intros H. unfold wrap64.
  rewrite Z.mod_small; lia.
Qed.

(** C8.  A call whose clock reading is less than 300 seconds after
    [lastPluginUpdate] returns an error (the update is not enabled, or the
    previous one is in flight, or it is too recent); it leaves
    [updateInflight] and [lastPluginUpdate] as they were, and all it does
    to the outside world is, in debug mode, to write a line to the log: no
    git command, no file operation and no report to the metrics sink. *)
Theorem C8_too_recent_rejected_without_effects {L : Libs} (env : Env)
        (ver : string) (st : State) :
  let now := wrap64 (clock env (ticks st)) in
  (0 <= now - lastPluginUpdate st < 300)%Z ->
  (exists err, result (UpdatePlugin env ver) st = Ret (Some err)) /\
  updateInflight (final (UpdatePlugin env ver) st) = updateInflight st /\
  lastPluginUpdate (final (UpdatePlugin env ver) st) = lastPluginUpdate st /\
  forall e b, In (e, b) (events (UpdatePlugin env ver) st) ->
              exists msg, e = Log msg.
Proof.
  intros now Hrecent.
  pose proof (wrap64_small Hrecent) as Hw.
  assert (Hlt : (wrap64 (now - lastPluginUpdate st) <? 300)%Z = true)
    by (rewrite Hw; apply Z.ltb_lt; lia).
  unfold UpdatePlugin, result, final, events, bind, getInflight, getLast,
    timeNow, when, logPrintln, emit, ret.
  destruct (Enabled (Plugin (Config env))), (Debug (Config env)),
    (updateInflight st) eqn:F; simpl; rewrite ?F; simpl;
    fold now; rewrite ?Hlt; simpl; rewrite ?F;
    (split; [eexists; reflexivity|]);
    (split; [reflexivity|]); (split; [reflexivity|]);
    intros e b H;
    repeat (destruct H as [H|H]; [injection H as <- _; eexists; reflexivity|]);
    contradiction.
Qed.

(** C8, at a call 100 seconds after the previous one. *)
Lemma C8_too_recent_rejected_without_effects_witness :
  let st := {| updateInflight := false;
               lastPluginUpdate := 1479999900;
               ticks := 0 |} in
  (exists err,
      result (UpdatePlugin (L := Sample.libs) Sample.altSigned "") st
      = Ret (Some err)) /\
  updateInflight (final (UpdatePlugin (L := Sample.libs) Sample.altSigned "") st)
  = false /\
  lastPluginUpdate (final (UpdatePlugin (L := Sample.libs) Sample.altSigned "") st)
  = 1479999900%Z /\
  forall e b,
    In (e, b) (events (UpdatePlugin (L := Sample.libs) Sample.altSigned "") st) ->
    exists msg, e = Log msg.
Proof.
  apply (C8_too_recent_rejected_without_effects (L := Sample.libs)
           Sample.altSigned ""
           {| updateInflight := false;
              lastPluginUpdate := 1479999900;
              ticks := 0 |}).
  vm_compute. split; [discriminate | reflexivity].
Defined.

(** ** Verification before checkout *)

Lemma stops_bind {A : Type} (m : M A) (f : A -> M (option error))
      (st : State) (a : A) (err : error) :
  result m st = Ret a ->
  Forall NoReset (events m st) ->
  Stops err (f a) (final m st) ->
  Stops err (bind m f) st.
Proof.
  intros Hr He [H1 H2]. unfold Stops, result, events.
  rewrite (bind_run _ _ _ Hr). simpl.
  split; [exact H1 | apply Forall_app; auto].
Qed.

Section Checkout.

Context {L : Libs}.
Variable env : Env.

Ltac reset_side := solve [ intros; reflexivity | intros; exact I ].

Lemma ensureGitRepo_no_reset (path remote : string) :
  Keeps (fun _ => True) NoReset (ensureGitRepo env path remote).
Proof. unfold ensureGitRepo, run, logPrintln. keeps reset_side. Qed.

Lemma updateByFetch_no_reset (path : string) :
  Keeps (fun _ => True) NoReset (updateByFetch env path).
Proof.
  intros st _.
  unfold updateByFetch, final, events, bind, defer, logPrintln, emit,
    setInflight, timeNow, setLast, run, ret.
  simpl.
  destruct (cmdErr (git_fetch env path)); simpl;
    (split; [exact I | repeat constructor]).
Qed.

Lemma verifySignature_no_reset (path head : string) (keys : list string) :
  Keeps (fun _ => True) NoReset (verifySignature env path head keys).
Proof. unfold verifySignature, run. keeps reset_side. Qed.

Lemma logAltKeys_no_reset (ks : list string) :
  Keeps (fun _ => True) NoReset (logAltKeys ks).
Proof.
  induction ks as [|k ks IH]; simpl; unfold logPrintln; keeps reset_side.
Qed.

Lemma trustedKeys_no_reset (ver : string) :
  Keeps (fun _ => True) NoReset (trustedKeys env ver).
Proof.
  pose proof logAltKeys_no_reset as Hlog.
  unfold trustedKeys, getAltSigningKeys, verifySignature, reportFailure,
    when, run, logPrintln.
  keeps reset_side.
Qed.

Lemma updateByFetch_result (path : string) (st : State) :
  cmdErr (git_fetch env path) = None ->
  result (updateByFetch env path) st = Ret None.
Proof.
  intros H.
  unfold updateByFetch, result, bind, defer, logPrintln, emit,
    setInflight, timeNow, setLast, run, ret.
  simpl. now rewrite H.
Qed.

End Checkout.

(** C6.  In a call that gets as far as the signature check (the update is
    enabled, no update is in flight, the previous one is old enough, the
    repository is there or was made, the fetch worked) with configured
    keys, when [verifySignature] of the target returns an error
    [UpdatePlugin] returns that same error, and [git reset --hard] is not
    among the commands it ran. *)
Theorem C6_failed_verification_stops_before_checkout {L : Libs} (env : Env)
        (ver : string) (st : State) (keys : list string) (err : error) :
  let cfg := Plugin (Config env) in
  let target := if (ver =? "")%string then "origin/master" else ver in
  Enabled cfg = true ->
  updateInflight st = false ->
  (300 <= wrap64 (wrap64 (clock env (ticks st)) - lastPluginUpdate st))%Z ->
  (forall s, result (ensureGitRepo env (CheckoutPath cfg) (Git cfg)) s
             = Ret None) ->
  cmdErr (git_fetch env (CheckoutPath cfg)) = None ->
  SigningKeys cfg <> [] ->
  (forall s, result (trustedKeys env target) s = Ret keys) ->
  (forall s, result (verifySignature env (CheckoutPath cfg) target keys) s
             = Ret (Some err)) ->
  result (UpdatePlugin env ver) st = Ret (Some err) /\
  forall e b, In (e, b) (events (UpdatePlugin env ver) st) ->
              isReset e = false.
Proof.
  intros cfg target Hen Hidle Hold Hrepo Hfetch Hkeys Htrust Hver.
  assert (Hstops : Stops err (UpdatePlugin env ver) st).
  { unfold UpdatePlugin. fold cfg. rewrite Hen. simpl negb. cbv iota.
    eapply stops_bind;
      [unfold result, getInflight; simpl; rewrite Hidle; reflexivity
      | constructor |].
    cbv beta iota. change (final getInflight st) with st.
    eapply stops_bind; [reflexivity | constructor |].
    eapply stops_bind; [reflexivity | constructor |].
    cbv beta.
    change (lastPluginUpdate (final (timeNow env) st))
      with (lastPluginUpdate st).
    apply Z.ltb_ge in Hold. rewrite Hold.
    eapply stops_bind with (a := tt).
    { unfold when. destruct (negb _); reflexivity. }
    { unfold when. destruct (negb _); repeat constructor. }
    unfold orFail at 1.
    eapply stops_bind;
      [apply Hrepo | apply ensureGitRepo_no_reset; exact I |].
    cbv beta iota. unfold orFail at 1.
    eapply stops_bind;
      [apply updateByFetch_result; exact Hfetch
      | apply updateByFetch_no_reset; exact I |].
    cbv beta iota. unfold verifyStage. fold cfg.
    destruct (SigningKeys cfg) as [|k0 ks0] eqn:Ek; [congruence|].
    simpl Nat.ltb. cbv iota.
    eapply stops_bind;
      [apply Htrust | apply trustedKeys_no_reset; exact I |].
    unfold orFail at 1.
    eapply stops_bind;
      [apply Hver | apply verifySignature_no_reset; exact I |].
    cbv beta iota. split; [reflexivity | repeat constructor]. }
  destruct Hstops as [Hres Hev]. split; [exact Hres|].
  intros e b Hin. rewrite Forall_forall in Hev. exact (Hev _ Hin).
Qed.

(** C6, at a world where the target is signed with a key that is not
    trusted. *)
Lemma C6_failed_verification_stops_before_checkout_witness :
  result (UpdatePlugin (L := Sample.libs) Sample.targetUntrusted "")
         Sample.start
  = Ret (Some "Signing key untrusted") /\
  forall e b,
    In (e, b) (events (UpdatePlugin (L := Sample.libs)
                         Sample.targetUntrusted "") Sample.start) ->
    isReset e = false.
Proof.
  apply (C6_failed_verification_stops_before_checkout (L := Sample.libs)
           Sample.targetUntrusted "" Sample.start (keys := [Sample.keyC])).
  - reflexivity.
  - reflexivity.
  - vm_compute. discriminate.
  - intros s. reflexivity.
  - reflexivity.
  - discriminate.
  - intros s. reflexivity.
  - intros s. vm_compute. reflexivity.
Defined.

(** ** Self-update *)

Lemma bytes_Equal_eq (a c : list byte) : bytes_Equal a c = true <-> a = c.
Proof.
  revert c. induction a as [|x a IH]; intros [|y c]; simpl;
    try (split; [discriminate | discriminate]); [tauto|].
  rewrite andb_true_iff, IH. split.
  - intros [H1 H2]. apply Byte.byte_dec_bl in H1. now subst.
  - intros H. injection H as -> ->. split; [now apply Byte.byte_dec_lb|reflexivity].
Qed.

(** ** Plain paths *)

Lemma allPlain_app (a c : string) :
  allPlain (a +++ c) = allPlain a && allPlain c.
Proof.
  induction a as [|x a IH]; simpl; [reflexivity|].
  now rewrite IH, andb_assoc.
Qed.

Lemma allPlain_hex (bs : list byte) : allPlain (hex_EncodeToString bs) = true.
Proof.
  induction bs as [|x bs IH]; [reflexivity|].
  cbn [hex_EncodeToString allPlain]. rewrite IH.
  destruct x; reflexivity.
Qed.

(** The backup path of a plain path is plain: the script sees three plain
    paths when those of the running binary and of the candidate are. *)
Lemma plainPath_backup (p : string) (digest : list byte) :
  plainPath p = true ->
  plainPath (p +++ "." +++ hex_EncodeToString digest) = true.
Proof.
  destruct p as [|c p]; [discriminate|]. simpl.
  intros H. apply andb_true_iff in H as [Hc H].
  apply andb_true_iff in H as [Hc' Hp].
  rewrite Hc, Hc', allPlain_app, Hp. simpl. apply allPlain_hex.
Qed.

(** C9, as it holds.  Let [new] be the path of the candidate.
    - When nothing is at [new], [TrySelfUpdate] does nothing but write to
      the log; it returns nil if self-update is off or the path of the
      running binary was found, and the error of that lookup otherwise.
    - When both files were read and their digests are equal, it does
      nothing but write to the log, and it returns nil.
    - When the digests differ, the two paths are plain (the shell passes
      them on unchanged, each as one word) and the script gets as far as
      the rename (the candidate is a regular file, no old backup is in the
      way or it was removed), the script runs one rename, of the running
      binary to the backup path, and then one copy of the candidate to the
      path of the running binary if the rename succeeded, and no copy if it
      failed. *)
Theorem C9_self_update_steps {L : Libs} (env : Env) (st : State) :
  let cfg := Config env in
  let new := path_Join (CheckoutPath (Plugin cfg)) "satori-agent" in
  (IsExist env new = false ->
   (forall e b, In (e, b) (events (TrySelfUpdate env) st) -> isLog e = true) /\
   result (TrySelfUpdate env) st
   = if SelfUpdate cfg
     then match Executable env with
          | inl _ => Ret None
          | inr err => Ret (Some err)
          end
     else Ret None) /\
  (forall selfPath selfBytes newBytes,
      Executable env = inl selfPath ->
      readWhole env selfPath = inl selfBytes ->
      readWhole env new = inl newBytes ->
      sha256_Sum selfBytes = sha256_Sum newBytes ->
      (forall e b, In (e, b) (events (TrySelfUpdate env) st) ->
                   isLog e = true) /\
      result (TrySelfUpdate env) st = Ret None) /\
  (forall selfPath selfBytes newBytes,
      SelfUpdate cfg = true ->
      Executable env = inl selfPath ->
      IsExist env new = true ->
      readWhole env selfPath = inl selfBytes ->
      readWhole env new = inl newBytes ->
      sha256_Sum selfBytes <> sha256_Sum newBytes ->
      plainPath selfPath = true ->
      plainPath new = true ->
      let backup :=
        selfPath +++ "." +++ hex_EncodeToString (sha256_Sum selfBytes) in
      sh_test_f env new = true ->
      (sh_test_f env backup = false \/ sh_rm_f env backup = None) ->
      renames (events (TrySelfUpdate env) st) = [ShRename selfPath backup] /\
      copies (events (TrySelfUpdate env) st)
      = match sh_mv env selfPath backup with
        | None => [ShCopy new selfPath]
        | Some _ => []
        end).
Proof.
  intros cfg new. split; [|split].
  - intros Habsent.
    unfold TrySelfUpdate, result, events, when, logPrintln, bind, emit, ret.
    fold cfg. fold new.
    rewrite Habsent.
    destruct (SelfUpdate cfg); simpl.
    + destruct (Executable env) as [p|err]; simpl.
      * destruct (Debug cfg); simpl.
        -- split; [|reflexivity].
           intros e b [H|[]]. now injection H as <- _.
        -- split; [intros e b []|reflexivity].
      * split; [intros e b []|reflexivity].
    + split; [intros e b []|reflexivity].
  - intros selfPath selfBytes newBytes Hexe Hself Hnew Hsame.
    apply bytes_Equal_eq in Hsame.
    unfold TrySelfUpdate, result, events, when, logPrintln, bind, emit, ret.
    fold cfg. fold new.
    rewrite Hexe, Hself, Hnew, Hsame.
    destruct (SelfUpdate cfg); simpl.
    + destruct (IsExist env new); simpl.
      * split; [intros e b []|reflexivity].
      * destruct (Debug cfg); simpl.
        -- split; [|reflexivity].
           intros e b [H|[]]. now injection H as <- _.
        -- split; [intros e b []|reflexivity].
    + split; [intros e b []|reflexivity].
  - intros selfPath selfBytes newBytes Hon Hexe Hthere Hself Hnew Hdiff
           _ _ backup Hfile Hbackup.
    assert (Hneq : bytes_Equal (sha256_Sum selfBytes) (sha256_Sum newBytes)
                   = false).
    { destruct (bytes_Equal _ _) eqn:E; [|reflexivity].
      apply bytes_Equal_eq in E. contradiction. }
    unfold TrySelfUpdate, events. fold cfg. fold new.
    rewrite Hon, Hexe, Hthere, Hself, Hnew, Hneq. simpl negb. cbv iota.
    fold backup.
    unfold selfUpdateScript. rewrite Hfile. simpl negb. cbv iota.
    unfold renames, copies, bind, emit, ret, logPrintln, lift.
    destruct (sh_test_f env backup) eqn:Eb; simpl.
    + destruct Hbackup as [Hb|Hb]; [discriminate|]. rewrite Hb. simpl.
      destruct (sh_mv env selfPath backup); simpl.
      * split; reflexivity.
      * destruct (sh_cp_a env new selfPath); simpl;
          [|destruct (syscall_Exec env selfPath)]; split; reflexivity.
    + destruct (sh_mv env selfPath backup); simpl.
      * split; reflexivity.
      * destruct (sh_cp_a env new selfPath); simpl;
          [|destruct (syscall_Exec env selfPath)]; split; reflexivity.
Qed.

(** C9, at a world where the candidate differs from the running binary
    and every step of the script succeeds. *)
Lemma C9_self_update_steps_witness :
  renames (events (TrySelfUpdate (L := Sample.libs) Sample.altSigned)
                  Sample.start)
  = [ShRename Sample.selfPath
       (Sample.selfPath +++ "."
        +++ hex_EncodeToString (bytesOf Sample.selfPath))] /\
  copies (events (TrySelfUpdate (L := Sample.libs) Sample.altSigned)
                 Sample.start)
  = [ShCopy "/opt/satori/plugin/satori-agent" Sample.selfPath].
Proof.
  apply (proj2 (proj2 (C9_self_update_steps (L := Sample.libs)
                         Sample.altSigned Sample.start))
           Sample.selfPath (bytesOf Sample.selfPath)
           (bytesOf "/opt/satori/plugin/satori-agent")).
  - reflexivity.
  - reflexivity.
  - reflexivity.
  - reflexivity.
  - reflexivity.
  - vm_compute. discriminate.
  - reflexivity.
  - reflexivity.
  - reflexivity.
  - left. vm_compute. reflexivity.
Defined.

(** C9, as stated, fails twice.  With different digests and a rename that
    fails, the script stops: one rename was tried and no copy is made.
    With no candidate and no way to find the path of the running binary,
    the call returns the error of the lookup, not success. *)
Lemma C9_rename_failure_and_lookup_failure :
  (sha256_Sum (Libs := Sample.libs) (bytesOf Sample.selfPath)
   <> sha256_Sum (Libs := Sample.libs)
        (bytesOf "/opt/satori/plugin/satori-agent") /\
   TrySelfUpdate (L := Sample.libs) Sample.renameFails Sample.start
   = (Ret (Some "exit status 1"), Sample.start,
      [(ShRename Sample.selfPath
          (Sample.selfPath +++ "."
           +++ hex_EncodeToString (bytesOf Sample.selfPath)), false)]) /\
   copies (events (TrySelfUpdate (L := Sample.libs) Sample.renameFails)
                  Sample.start) = []) /\
  (IsExist Sample.noExecutable "/opt/satori/plugin/satori-agent" = false /\
   result (TrySelfUpdate (L := Sample.libs) Sample.noExecutable) Sample.start
   = Ret (Some "readlink /proc/self/exe: permission denied")).
Proof.
  repeat split; try (vm_compute; reflexivity).
  vm_compute. discriminate.
Qed.

(** * Further properties of the code *)

(** ** What [verifySignature] accepts *)

(** The key the loop leaves is the one it had, or the first field of an
    entry that has the keyid as a prefix. *)
Lemma pickKey_from (keys : list string) (keyid key0 k : string) :
  pickKey keys keyid key0 = Ret k ->
  k = key0 \/
  exists entry, In entry keys /\ strings.HasPrefix entry keyid = true /\
                index (strings.Fields entry) 0 = Ret k.
Proof.
  induction keys as [|e ks IH]; simpl; intros H.
  - left. now injection H as <-.
  - destruct (strings.HasPrefix e keyid) eqn:E.
    + right. exists e. auto.
    + destruct (IH H) as [->|[entry [Hin [Hp Hf]]]]; [now left|].
      right. exists entry. auto.
Qed.

Lemma scanLine_key_from (keys : list string) (st st1 : Scan) (l : string) :
  scanLine keys st l = Ret st1 ->
  key st1 = key st \/
  exists entry, In entry keys /\ index (strings.Fields entry) 0 = Ret (key st1).
Proof.
  unfold scanLine.
  destruct (strings.HasPrefix l "tree ").
  - intros H. injection H as <-. now left.
  - destruct (strings.HasPrefix l "satori-sign ").
    + destruct (index _ 0) as [keyid| |]; simpl; try discriminate.
      destruct (pickKey keys keyid (key st)) as [k| |] eqn:Ek; simpl;
        try discriminate.
      destruct (index _ 1); simpl; try discriminate.
      intros H. injection H as <-. simpl.
      destruct (pickKey_from _ _ _ Ek) as [->|[entry [Hin [_ Hf]]]];
        [now left | right; exists entry; auto].
    + intros H. injection H as <-. now left.
Qed.

Lemma scanLines_key_from (keys : list string) (lines : list string) :
  forall st st1,
    scanLines keys st lines = Ret st1 ->
    key st1 = key st \/
    exists entry, In entry keys /\
                  index (strings.Fields entry) 0 = Ret (key st1).
Proof.
  induction lines as [|l rest IH]; intros st st1 H; simpl in H.
  - injection H as <-. now left.
  - destruct (scanLine keys st l) as [st0| |] eqn:E; simpl in H;
      try discriminate.
    destruct (IH _ _ H) as [Hk|Hk]; [|now right].
    rewrite Hk. exact (scanLine_key_from _ _ _ E).
Qed.

(** X1.  [verifySignature] returns nil only for a commit text in which it
    found a tree hash and a record, whose key is the first field of one of
    the trusted entries, and for which [ed25519.Verify] accepted the tree
    hash under that key. *)
Theorem accepted_commit_is_signed_by_trusted_key {L : Libs}
        (content : string) (validKeys : list string) :
  verifyContent content validKeys = Ret None ->
  exists st entry vkslice signslice,
    scanLines validKeys {| tree := ""; key := ""; sign := "" |}
              (strings.Split content LF) = Ret st /\
    tree st <> "" /\ sign st <> "" /\
    In entry validKeys /\
    index (strings.Fields entry) 0 = Ret (key st) /\
    base64_DecodeString (key st) = inl vkslice /\
    base64_DecodeString (sign st) = inl signslice /\
    ed25519_Verify (copyInto 32 vkslice) (bytesOf (tree st))
                   (copyInto 64 signslice) = true.
Proof.
  unfold verifyContent. intros H.
  destruct (scanLines validKeys _ _) as [st| |] eqn:E; simpl in H;
    try discriminate.
  injection H as H. unfold checkScan in H.
  destruct (tree st =? "")%string eqn:Et; [discriminate|].
  destruct (sign st =? "")%string eqn:Es; [discriminate|].
  destruct (key st =? "")%string eqn:Ek; [discriminate|].
  destruct (base64_DecodeString (key st)) as [vk|] eqn:Evk; [|discriminate].
  destruct (base64_DecodeString (sign st)) as [sg|] eqn:Esg; [|discriminate].
  destruct (ed25519_Verify _ _ _) eqn:Ev; [|discriminate].
  apply String.eqb_neq in Et, Es, Ek.
  destruct (scanLines_key_from _ _ _ E) as [Hk|[entry [Hin Hf]]].
  - simpl in Hk. contradiction.
  - exists st, entry, vk, sg. repeat split; assumption.
Qed.

Lemma accepted_commit_is_signed_by_trusted_key_witness :
  exists st entry vkslice signslice,
    scanLines [Sample.keyA] {| tree := ""; key := ""; sign := "" |}
              (strings.Split (Sample.commit [Sample.signA]) LF) = Ret st /\
    tree st <> "" /\ sign st <> "" /\
    In entry [Sample.keyA] /\
    index (strings.Fields entry) 0 = Ret (key st) /\
    base64_DecodeString (Libs := Sample.libs) (key st) = inl vkslice /\
    base64_DecodeString (Libs := Sample.libs) (sign st) = inl signslice /\
    ed25519_Verify (Libs := Sample.libs) (copyInto 32 vkslice)
                   (bytesOf (tree st)) (copyInto 64 signslice) = true.
Proof.
  apply (accepted_commit_is_signed_by_trusted_key (L := Sample.libs)).
  vm_compute. reflexivity.
Defined.

(** ** Commits without a record, and the line that gives the tree hash *)

Lemma scanLine_other (keys : list string) (st : Scan) (l : string) :
  isRecordLine l = false ->
  scanLine keys st l
  = Ret {| tree := if isTreeLine l
                   then strings.TrimSpace
                          (strings.drop (String.length "tree ") l)
                   else tree st;
           key := key st;
           sign := sign st |}.
Proof.
  unfold isRecordLine, isTreeLine, scanLine. intros H. rewrite H.
  destruct (strings.HasPrefix l "tree "); [reflexivity|].
  now destruct st.
Qed.

Lemma scanLines_no_record (keys : list string) (lines : list string) :
  forall st,
    forallb (fun l => negb (isRecordLine l)) lines = true ->
    exists t, scanLines keys st lines
              = Ret {| tree := t; key := key st; sign := sign st |}.
Proof.
  induction lines as [|l rest IH]; intros st Hno; simpl in *.
  - exists (tree st). now destruct st.
  - apply andb_true_iff in Hno as [Hl Hrest].
    apply negb_true_iff in Hl.
    rewrite (scanLine_other keys st l Hl). simpl.
    destruct (IH {| tree := if isTreeLine l
                            then strings.TrimSpace
                                   (strings.drop (String.length "tree ") l)
                            else tree st;
                    key := key st; sign := sign st |} Hrest) as [t Ht].
    exists t. exact Ht.
Qed.

(** X2.  A commit text with no [satori-sign] line is never accepted and
    never makes [verifySignature] panic, whatever the trusted keys: the
    verdict is the missing tree hash or the missing signature. *)
Theorem commit_without_record_is_rejected {L : Libs}
        (content : string) (validKeys : list string) :
  forallb (fun l => negb (isRecordLine l)) (strings.Split content LF) = true ->
  verifyContent content validKeys = Ret (Some "Can't find tree hash") \/
  verifyContent content validKeys = Ret (Some "Signature not found").
Proof.
  intros Hno. unfold verifyContent.
  destruct (scanLines_no_record validKeys _
              {| tree := ""; key := ""; sign := "" |} Hno) as [t Ht].
  rewrite Ht. simpl. unfold checkScan. simpl.
  destruct (t =? "")%string; [now left | now right].
Qed.

Lemma commit_without_record_is_rejected_witness :
  verifyContent (L := Sample.libs) (Sample.commit []) [Sample.keyA]
  = Ret (Some "Can't find tree hash") \/
  verifyContent (L := Sample.libs) (Sample.commit []) [Sample.keyA]
  = Ret (Some "Signature not found").
Proof.
  apply (commit_without_record_is_rejected (L := Sample.libs)).
  vm_compute. reflexivity.
Defined.

(** X3.  The tree hash that is checked is taken from the last line of the
    commit text that begins with [tree ], wherever that line stands (the
    lines of the commit message are scanned like the header): every such
    line overwrites the hash of the earlier ones. *)
Theorem last_tree_line_gives_the_hash
        (content : string) (validKeys pre post : list string) (l : string)
        (st : Scan) :
  strings.Split content LF = pre ++ l :: post ->
  isTreeLine l = true ->
  forallb (fun x => negb (isTreeLine x)) post = true ->
  scanLines validKeys {| tree := ""; key := ""; sign := "" |}
            (strings.Split content LF) = Ret st ->
  tree st = strings.TrimSpace (strings.drop (String.length "tree ") l).
Proof.
  intros Hsplit Hl Hpost Hscan. rewrite Hsplit in Hscan.
  rewrite scanLines_app in Hscan.
  destruct (scanLines validKeys _ pre) as [st0| |]; simpl in Hscan;
    try discriminate.
  unfold scanLine, isTreeLine in *. rewrite Hl in Hscan. simpl in Hscan.
  apply scanLines_no_tree in Hscan; [|exact Hpost]. exact Hscan.
Qed.

Lemma last_tree_line_gives_the_hash_witness :
  tree {| tree := "0000000000000000000000000000000000000000";
          key := "MDEyMzQ1Njc4OWFiY2RlZjAxMjM0NTY3ODlhYmNkZWY=";
          sign := "MDEyMzQ1Njc4OWFiY2RlZjAxMjM0NTY3ODlhYmNkZWY0YjgyNWRjNjQyY2I2ZWI5YTA2MGU1NGJmOGQ2OTI4OA==" |}
  = strings.TrimSpace
      (strings.drop (String.length "tree ")
                    "tree 0000000000000000000000000000000000000000").
Proof.
  apply (last_tree_line_gives_the_hash
           ("tree " +++ Sample.treeHash +++ nl
            +++ Sample.signA +++ nl +++ nl
            +++ "see" +++ nl
            +++ "tree 0000000000000000000000000000000000000000"
            +++ nl +++ "for details")
           [Sample.keyA]
           ["tree " +++ Sample.treeHash; Sample.signA; ""; "see"]
           ["for details"]
           "tree 0000000000000000000000000000000000000000").
  - vm_compute. reflexivity.
  - reflexivity.
  - reflexivity.
  - vm_compute. reflexivity.
Defined.

(** ** The choice of the key *)

(** X4.  The key loop takes the first entry, in the order of the list,
    that has the keyid as a prefix: entries after it are not looked at,
    also when they have the prefix too. *)
Theorem first_matching_entry_is_selected
        (pre post : list string) (entry keyid key0 : string) :
  existsb (fun k => strings.HasPrefix k keyid) pre = false ->
  strings.HasPrefix entry keyid = true ->
  pickKey (pre ++ entry :: post) keyid key0
  = index (strings.Fields entry) 0.
Proof.
  intros Hpre Hentry. rewrite pickKey_app, Hpre. simpl. now rewrite Hentry.
Qed.

Lemma first_matching_entry_is_selected_witness :
  pickKey ([Sample.keyA] ++ Sample.keyC :: [Sample.keyB]) "QUJDREVG" ""
  = index (strings.Fields Sample.keyC) 0.
Proof.
  apply first_matching_entry_is_selected; reflexivity.
Defined.

Lemma pickKey_no_match (keys : list string) (keyid key0 : string) :
  existsb (fun k => strings.HasPrefix k keyid) keys = false ->
  pickKey keys keyid key0 = Ret key0.
Proof.
  induction keys as [|k ks IH]; simpl; [reflexivity|].
  intros H. apply orb_false_iff in H as [Hk Hks]. rewrite Hk. auto.
Qed.

(** X5.  A commit text with one record, whose keyid is a prefix of no
    trusted entry, is never accepted and does not panic.  The scan ends
    with no key, with the signature of the record and with the tree hash
    [tree st] of the text (empty when no line begins with [tree ]), and the
    verdict is the missing tree hash when [tree st] is empty, else the
    missing signature when nothing follows the colon, else the untrusted
    key. *)
Theorem unknown_keyid_is_untrusted {L : Libs}
        (content : string) (validKeys pre post : list string)
        (l keyid sg : string) (more : list string) :
  strings.Split content LF = pre ++ l :: post ->
  forallb (fun x => negb (isRecordLine x)) (pre ++ post) = true ->
  isSignLine l = true ->
  strings.Split
    (strings.TrimSpace (strings.drop (String.length "satori-sign ") l)) colon
  = keyid :: sg :: more ->
  existsb (fun k => strings.HasPrefix k keyid) validKeys = false ->
  exists st,
    scanLines validKeys {| tree := ""; key := ""; sign := "" |}
              (strings.Split content LF) = Ret st /\
    key st = "" /\ sign st = sg /\
    (forallb (fun x => negb (isTreeLine x)) (strings.Split content LF) = true ->
     tree st = "") /\
    verifyContent content validKeys
    = Ret (Some (if (tree st =? "")%string then "Can't find tree hash"
                 else if (sg =? "")%string then "Signature not found"
                 else "Signing key untrusted")).
Proof.
  intros Hsplit Hno Hl Ha Hkeys.
  assert (Hscan : exists t,
             scanLines validKeys {| tree := ""; key := ""; sign := "" |}
                       (strings.Split content LF)
             = Ret {| tree := t; key := ""; sign := sg |}).
  { rewrite Hsplit.
    rewrite forallb_app in Hno. apply andb_true_iff in Hno as [Hpre Hpost].
    rewrite scanLines_app.
    destruct (scanLines_no_record validKeys pre
                {| tree := ""; key := ""; sign := "" |} Hpre) as [t0 Ht0].
    rewrite Ht0. cbn [rbind scanLines].
    unfold isSignLine in Hl. apply andb_true_iff in Hl as [Hnt Hs].
    apply negb_true_iff in Hnt.
    unfold scanLine at 1. rewrite Hnt, Hs, Ha.
    cbn [index nth_error rbind key tree sign].
    rewrite (pickKey_no_match _ _ _ Hkeys). cbn [rbind].
    exact (scanLines_no_record validKeys post
             {| tree := t0; key := ""; sign := sg |} Hpost). }
  destruct Hscan as [t Ht].
  exists {| tree := t; key := ""; sign := sg |}.
  split; [exact Ht|]. split; [reflexivity|]. split; [reflexivity|].
  split.
  - intros Hnotree. exact (scanLines_no_tree _ _ _ Hnotree Ht).
  - unfold verifyContent. rewrite Ht. cbn [rbind]. unfold checkScan.
    cbn [tree key sign].
    destruct (t =? "")%string; [reflexivity|].
    destruct (sg =? "")%string; reflexivity.
Qed.

Lemma unknown_keyid_is_untrusted_witness :
  exists st,
    scanLines [Sample.keyB; Sample.keyC]
              {| tree := ""; key := ""; sign := "" |}
              (strings.Split
                 ("tree " +++ Sample.treeHash +++ nl +++ Sample.signA +++ nl
                  +++ "msg") LF) = Ret st /\
    key st = "" /\
    sign st = "MDEyMzQ1Njc4OWFiY2RlZjAxMjM0NTY3ODlhYmNkZWY0YjgyNWRjNjQyY2I2ZWI5YTA2MGU1NGJmOGQ2OTI4OA==" /\
    (forallb (fun x => negb (isTreeLine x))
             (strings.Split
                ("tree " +++ Sample.treeHash +++ nl +++ Sample.signA +++ nl
                 +++ "msg") LF) = true ->
     tree st = "") /\
    verifyContent (L := Sample.libs)
      ("tree " +++ Sample.treeHash +++ nl +++ Sample.signA +++ nl +++ "msg")
      [Sample.keyB; Sample.keyC]
    = Ret (Some (if (tree st =? "")%string then "Can't find tree hash"
                 else if ("MDEyMzQ1Njc4OWFiY2RlZjAxMjM0NTY3ODlhYmNkZWY0YjgyNWRjNjQyY2I2ZWI5YTA2MGU1NGJmOGQ2OTI4OA==" =? "")%string
                      then "Signature not found"
                      else "Signing key untrusted")).
Proof.
  apply (unknown_keyid_is_untrusted (L := Sample.libs)
           ("tree " +++ Sample.treeHash +++ nl +++ Sample.signA +++ nl
            +++ "msg")
           [Sample.keyB; Sample.keyC]
           ["tree " +++ Sample.treeHash] ["msg"] Sample.signA
           (keyid := "MDEyMzQ1") (more := [])).
  - vm_compute. reflexivity.
  - reflexivity.
  - reflexivity.
  - vm_compute. reflexivity.
  - reflexivity.
Defined.

(** ** Trimming, and the entries of the key file *)

Lemma startsWith_app (r x y : list ascii) :
  strings.startsWith r x = true -> strings.startsWith r (x ++ y) = true.
Proof.
  revert x. induction r as [|c r IH]; intros [|d x]; simpl; auto.
  - discriminate.
  - intros H. apply andb_true_iff in H as [H1 H2]. rewrite H1. simpl. auto.
Qed.

Lemma spaceWidth_zero (runes : list (list ascii)) (l : list ascii) :
  ~ In [] runes ->
  (strings.spaceWidth runes l = 0
   <-> find (fun r => strings.startsWith r l) runes = None).
Proof.
  intros Hne. unfold strings.spaceWidth.
  destruct (find _ runes) as [r|] eqn:E; [|tauto].
  apply find_some in E as [Hin _].
  split; [|discriminate].
  intros H. destruct r; [contradiction | discriminate].
Qed.

Lemma spaceWidth_prefix (runes : list (list ascii)) (x y : list ascii) :
  ~ In [] runes ->
  strings.spaceWidth runes (x ++ y) = 0 -> strings.spaceWidth runes x = 0.
Proof.
  intros Hne H. apply (spaceWidth_zero _ _ Hne) in H.
  apply (spaceWidth_zero _ _ Hne).
  destruct (find (fun r => strings.startsWith r x) runes) as [r|] eqn:E;
    [|reflexivity].
  apply find_some in E as [Hin Hr].
  apply (find_none _ _ H) in Hin.
  rewrite (startsWith_app _ _ y Hr) in Hin. discriminate.
Qed.

Lemma trimFront_clean (runes : list (list ascii)) (l : list ascii) :
  forall skip,
    strings.trimFront runes skip l = [] \/
    strings.spaceWidth runes (strings.trimFront runes skip l) = 0.
Proof.
  induction l as [|c r IH]; intros skip; simpl; [now left|].
  destruct skip as [|k]; [|apply IH].
  destruct (strings.spaceWidth runes (c :: r)) eqn:E; [now right | apply IH].
Qed.

Lemma trimFront_suffix (runes : list (list ascii)) (l : list ascii) :
  forall skip, exists p, l = p ++ strings.trimFront runes skip l.
Proof.
  induction l as [|c r IH]; intros skip; simpl; [now exists []|].
  destruct skip as [|k].
  - destruct (strings.spaceWidth runes (c :: r)).
    + now exists [].
    + destruct (IH n) as [p Hp]. exists (c :: p). simpl. now f_equal.
  - destruct (IH k) as [p Hp]. exists (c :: p). simpl. now f_equal.
Qed.

Lemma trimFront_fixed (runes : list (list ascii)) (l : list ascii) :
  l = [] \/ strings.spaceWidth runes l = 0 ->
  strings.trimFront runes 0 l = l.
Proof.
  intros [->|H]; [reflexivity|].
  destruct l as [|c r]; [reflexivity|]. simpl. now rewrite H.
Qed.

Lemma no_empty_rune : ~ In [] strings.spaceRunes.
Proof. simpl. intuition discriminate. Qed.

Lemma no_empty_rune_rev : ~ In [] (map (@rev ascii) strings.spaceRunes).
Proof. simpl. intuition discriminate. Qed.

(** The bytes of a trimmed string: no space rune at the front, none at the
    back. *)
Lemma TrimSpace_clean (s : string) :
  let l := list_ascii_of_string (strings.TrimSpace s) in
  (l = [] \/ strings.spaceWidth strings.spaceRunes l = 0) /\
  (rev l = [] \/
   strings.spaceWidth (map (@rev ascii) strings.spaceRunes) (rev l) = 0).
Proof.
  unfold strings.TrimSpace.
  set (front := strings.trimFront strings.spaceRunes 0 (list_ascii_of_string s)).
  set (back := strings.trimFront _ 0 (rev front)).
  rewrite list_ascii_of_string_of_list_ascii. cbv zeta. split.
  - destruct (trimFront_suffix (map (@rev ascii) strings.spaceRunes)
                (rev front) 0) as [p Hp].
    fold back in Hp.
    assert (Hf : front = rev back ++ rev p).
    { rewrite <- (rev_involutive front), Hp, rev_app_distr. reflexivity. }
    destruct (trimFront_clean strings.spaceRunes (list_ascii_of_string s) 0)
      as [H|H]; fold front in H.
    + left. rewrite H in Hf. symmetry in Hf.
      now apply app_eq_nil in Hf as [Hb _].
    + right. rewrite Hf in H.
      exact (spaceWidth_prefix _ _ _ no_empty_rune H).
  - rewrite rev_involutive. apply trimFront_clean.
Qed.

(** Trimming a trimmed string changes nothing. *)
Lemma TrimSpace_twice (s : string) :
  strings.TrimSpace (strings.TrimSpace s) = strings.TrimSpace s.
Proof.
  destruct (TrimSpace_clean s) as [Hfront Hback].
  set (t := strings.TrimSpace s) in *. cbv zeta in Hfront, Hback.
  unfold strings.TrimSpace at 1.
  rewrite (trimFront_fixed _ Hfront), (trimFront_fixed _ Hback).
  now rewrite rev_involutive, string_of_list_ascii_of_string.
Qed.

Lemma fieldsFrom_open (l : list ascii) :
  forall skip cur, cur <> [] -> strings.fieldsFrom skip cur l <> [].
Proof.
  induction l as [|c r IH]; intros skip cur Hcur; simpl.
  - destruct cur; [congruence | discriminate].
  - destruct skip as [|k]; [|now apply IH].
    destruct (strings.spaceWidth strings.spaceRunes (c :: r)).
    + apply IH. discriminate.
    + destruct cur; [congruence | discriminate].
Qed.

(** A trimmed string that is not empty has a first field. *)
Lemma Fields_of_trimmed (s : string) :
  strings.TrimSpace s <> "" -> strings.Fields (strings.TrimSpace s) <> [].
Proof.
  intros Hne. destruct (TrimSpace_clean s) as [[H|H] _]; cbv zeta in H.
  - exfalso. apply Hne.
    rewrite <- (string_of_list_ascii_of_string (strings.TrimSpace s)), H.
    reflexivity.
  - unfold strings.Fields.
    destruct (list_ascii_of_string (strings.TrimSpace s)) as [|c r] eqn:E.
    + exfalso. apply Hne.
      rewrite <- (string_of_list_ascii_of_string (strings.TrimSpace s)), E.
      reflexivity.
    + simpl. rewrite H. apply fieldsFrom_open. discriminate.
Qed.

Lemma keyLines_fold (lines : list string) :
  forall acc,
    fold_left
      (fun lst l =>
         let l := strings.TrimSpace l in
         if strings.HasPrefix l "#" || (l =? "")%string then lst
         else lst ++ [l])
      lines acc
    = acc ++ filter isKeyEntry (map strings.TrimSpace lines).
Proof.
  induction lines as [|l rest IH]; intros acc; simpl.
  - now rewrite app_nil_r.
  - rewrite IH. unfold isKeyEntry at 2.
    destruct (strings.HasPrefix (strings.TrimSpace l) "#"
              || (strings.TrimSpace l =? "")%string); simpl.
    + reflexivity.
    + now rewrite <- app_assoc.
Qed.

(** X6.  The keys [getAltSigningKeys] reads from the key file are its lines,
    trimmed, in the order of the file, without the empty ones and without
    those that begin with [#] after trimming; so every key it returns is
    not empty, is not a comment, and has no space at either end. *)
Theorem key_file_entries (content : string) :
  keyLines content
  = filter isKeyEntry (map strings.TrimSpace (strings.Split content LF)) /\
  forall k, In k (keyLines content) ->
            k <> "" /\ strings.HasPrefix k "#" = false /\
            strings.TrimSpace k = k.
Proof.
  assert (H : keyLines content
              = filter isKeyEntry
                       (map strings.TrimSpace (strings.Split content LF))).
  { unfold keyLines. now rewrite keyLines_fold. }
  split; [exact H|].
  intros k Hk. rewrite H in Hk. apply filter_In in Hk as [Hin Hkeep].
  apply in_map_iff in Hin as [l [<- _]].
  unfold isKeyEntry in Hkeep. apply negb_true_iff, orb_false_iff in Hkeep.
  destruct Hkeep as [Hc He]. apply String.eqb_neq in He.
  repeat split; auto. apply TrimSpace_twice.
Qed.

(** X7.  Entries read from the key file never make the key loop panic:
    when every configured entry has a field, looking up any keyid in the
    alternate keys followed by the configured ones returns a key. *)
Theorem key_file_entries_never_panic
        (content : string) (primary : list string) (keyid key0 : string) :
  Forall (fun k => strings.Fields k <> []) primary ->
  exists k, pickKey (keyLines content ++ primary) keyid key0 = Ret k.
Proof.
  intros Hprim.
  assert (Hall : Forall (fun k => strings.Fields k <> [])
                        (keyLines content ++ primary)).
  { apply Forall_app. split; [|exact Hprim].
    apply Forall_forall. intros k Hk.
    destruct (proj2 (key_file_entries content) k Hk) as [Hne [_ Ht]].
    rewrite <- Ht. apply Fields_of_trimmed. now rewrite Ht. }
  induction Hall as [|e ks He Hks IH]; simpl.
  - now exists key0.
  - destruct (strings.HasPrefix e keyid); [|exact IH].
    unfold index. destruct (strings.Fields e) as [|f fs]; [congruence|].
    now exists f.
Qed.

Lemma key_file_entries_never_panic_witness :
  exists k,
    pickKey (keyLines ("# alternate keys" +++ nl +++ "  " +++ Sample.keyB
                       +++ nl +++ nl)
             ++ [Sample.keyC]) "QUJDREVG" "" = Ret k.
Proof.
  apply key_file_entries_never_panic.
  repeat constructor. discriminate.
Defined.

(** ** The runs of [UpdatePlugin], path by path *)

Lemma logAltKeys_run (ks : list string) (st : State) :
  logAltKeys ks st
  = (Ret tt, st,
     map (fun k => (Log ("Got alt key: [" +++ k +++ "]"), updateInflight st))
         ks).
Proof.
  induction ks as [|k ks IH]; [reflexivity|].
  simpl. unfold bind, logPrintln, emit. rewrite IH. reflexivity.
Qed.

(** The test on which a stuck computation waits. *)
Ltac scrutinee t :=
  lazymatch t with
  | match ?x with _ => _ end => scrutinee x
  | (match ?x with _ => _ end) _ => scrutinee x
  | _ => t
  end.

(** Follow a run [Hrun : m st = (r, st', t)] along every path; at the end
    of a path the three components are known. *)
Ltac run_step Hrun :=
  first
    [ rewrite logAltKeys_run in Hrun
    | lazymatch type of Hrun with
      | ?lhs = _ =>
          let x := scrutinee lhs in
          lazymatch x with
          | (_, _) => fail
          | _ => destruct x eqn:?
          end
      end ].

Ltac run_paths Hrun :=
  cbn in Hrun; repeat (run_step Hrun; cbn in Hrun).

Ltac unfold_update Hrun :=
  unfold UpdatePlugin, verifyStage, trustedKeys, orFail, checkoutCommit,
    getAltSigningKeys, verifySignature, ensureGitRepo, updateByFetch,
    reportFailure, when, run, logPrintln, defer, bind, ret, lift, emit,
    getInflight, getLast, setInflight, setLast, timeNow in Hrun.

(** Membership in a list of events that is known up to the alternate
    keys written to the log. *)
Ltac in_cases H :=
  repeat
    lazymatch type of H with
    | In _ (_ :: _) => destruct H as [H|H]; [try discriminate|]
    | In _ (_ ++ _) => apply in_app_or in H; destruct H as [H|H]
    | In _ (map _ _) =>
        let k := fresh "k" in
        apply in_map_iff in H; destruct H as [k [H _]]; discriminate
    | In _ [] => destruct H
    | False => destruct H
    end.

Ltac no_keys_absurd :=
  match goal with
  | H : List.length ?l = 0, H' : ?l <> [] |- _ =>
      destruct l; [congruence | discriminate]
  | H : List.length ?l = S _, H' : ?l = [] |- _ =>
      rewrite H' in H; discriminate
  end.

(** X8.  With configured keys, [UpdatePlugin] runs [git reset --hard] only
    on the checkout path and the target revision, and only after
    [git cat-file] gave the commit text of the target and
    [verifySignature] accepted it, against the configured keys or against
    alternate keys followed by the configured ones. *)
Theorem checkout_only_after_verification {L : Libs} (env : Env)
        (ver : string) (st : State) (d h : string) (b : bool) :
  let cfg := Plugin (Config env) in
  let target := if (ver =? "")%string then "origin/master" else ver in
  SigningKeys cfg <> [] ->
  In (GitResetHard d h, b) (events (UpdatePlugin env ver) st) ->
  d = CheckoutPath cfg /\ h = target /\
  cmdErr (git_cat_file env (CheckoutPath cfg) target) = None /\
  exists keys,
    (keys = SigningKeys cfg \/ exists alt, keys = alt ++ SigningKeys cfg) /\
    verifyContent (cmdOut (git_cat_file env (CheckoutPath cfg) target)) keys
    = Ret None.
Proof.
  intros cfg target Hkeys. subst cfg target. unfold events.
  destruct (UpdatePlugin env ver st) as [[r st'] t] eqn:Hrun. simpl.
  intros Hin. unfold_update Hrun. run_paths Hrun.
  all: injection Hrun as <- <- <-.
  all: try no_keys_absurd.
  all: in_cases Hin.
  all: injection Hin as <- <- <-.
  all: split; [reflexivity|]; split; [reflexivity|]; split; [reflexivity|].
  all: eexists; split; [|eassumption].
  all: first [left; reflexivity | right; eexists; reflexivity].
Qed.
(** The event is in a list known up to the alternate keys written to the
    log. *)
Ltac find_in :=
  repeat first [ left; reflexivity | apply in_or_app; right | right ].

(** X9.  [UpdatePlugin] returns nil only when [git fetch] and
    [git reset --hard] of the target both ran and succeeded; the flag is
    clear at the end. *)
Theorem success_means_fetched_and_checked_out {L : Libs} (env : Env)
        (ver : string) (st : State) :
  let cfg := Plugin (Config env) in
  let target := if (ver =? "")%string then "origin/master" else ver in
  result (UpdatePlugin env ver) st = Ret None ->
  cmdErr (git_fetch env (CheckoutPath cfg)) = None /\
  cmdErr (git_reset_hard env (CheckoutPath cfg) target) = None /\
  In (GitFetch (CheckoutPath cfg), true) (events (UpdatePlugin env ver) st) /\
  In (GitResetHard (CheckoutPath cfg) target, false)
     (events (UpdatePlugin env ver) st) /\
  updateInflight (final (UpdatePlugin env ver) st) = false.
Proof.
  intros cfg target. subst cfg target. unfold result, events, final.
  destruct (UpdatePlugin env ver st) as [[r st'] t] eqn:Hrun. simpl.
  intros ->. unfold_update Hrun. run_paths Hrun.
  all: try discriminate.
  all: injection Hrun as <- <-.
  all: repeat split; try reflexivity; find_in.
Qed.

(** X10.  Every error [UpdatePlugin] returns is one of the three messages
    of the guards, or has been sent to the metrics sink, with the same
    text, under [git-fail] or [signature-fail]. *)
Theorem every_failure_is_reported {L : Libs} (env : Env)
        (ver : string) (st : State) (err : error) :
  result (UpdatePlugin env ver) st = Ret (Some err) ->
  (err = "plugin not enabled" \/
   err = "Previous update inflight, do nothing" \/
   err = "Previous update too recent, do nothing") \/
  exists subject ts b,
    In (SendToTransfer (Hostname env) (".satori.agent.plugin." +++ subject)
                       ts err, b)
       (events (UpdatePlugin env ver) st) /\
    (subject = "git-fail" \/ subject = "signature-fail").
Proof.
  unfold result, events.
  destruct (UpdatePlugin env ver st) as [[r st'] t] eqn:Hrun. simpl.
  intros ->. unfold_update Hrun. run_paths Hrun.
  all: try discriminate.
  all: injection Hrun as <- <- <-.
  all: first
         [ left; repeat first [left; reflexivity | right]; reflexivity
         | right; eexists _, _, _; split;
           [find_in | first [left; reflexivity | right; reflexivity]] ].
Qed.
(** X11.  With no configured key, [UpdatePlugin] skips the signature check
    altogether, also when a key file is configured: it reads no commit,
    does not look for the key file, cannot panic, and the only metric it
    can report is [git-fail]. *)
Theorem no_keys_no_verification {L : Libs} (env : Env)
        (ver : string) (st : State) :
  SigningKeys (Plugin (Config env)) = [] ->
  (forall e b, In (e, b) (events (UpdatePlugin env ver) st) ->
               isVerifyEvent e = false) /\
  (forall ep metric ts desc b,
      In (SendToTransfer ep metric ts desc, b)
         (events (UpdatePlugin env ver) st) ->
      metric = ".satori.agent.plugin.git-fail") /\
  exists o, result (UpdatePlugin env ver) st = Ret o.
Proof.
  intros Hkeys. unfold result, events.
  destruct (UpdatePlugin env ver st) as [[r st'] t] eqn:Hrun. simpl.
  unfold_update Hrun. rewrite Hkeys in Hrun. run_paths Hrun.
  all: injection Hrun as <- <- <-.
  all: split; [|split].
  all: try (eexists; reflexivity).
  all: try (intros ev fl Hin; in_cases Hin;
            try (injection Hin as <- _; reflexivity); fail).
  all: intros ep metric ts desc fl Hin; in_cases Hin;
       try (inversion Hin; reflexivity).
Qed.

Lemma no_keys_no_verification_witness :
  (forall e b,
      In (e, b)
         (events (UpdatePlugin (L := Sample.libs)
                    (Sample.world (Sample.config [] "altkeys") "" ""
                                  (inl Sample.selfPath) true None) "")
                 Sample.start) ->
      isVerifyEvent e = false) /\
  (forall ep metric ts desc b,
      In (SendToTransfer ep metric ts desc, b)
         (events (UpdatePlugin (L := Sample.libs)
                    (Sample.world (Sample.config [] "altkeys") "" ""
                                  (inl Sample.selfPath) true None) "")
                 Sample.start) ->
      metric = ".satori.agent.plugin.git-fail") /\
  exists o,
    result (UpdatePlugin (L := Sample.libs)
              (Sample.world (Sample.config [] "altkeys") "" ""
                            (inl Sample.selfPath) true None) "")
           Sample.start = Ret o.
Proof.
  apply (no_keys_no_verification (L := Sample.libs)). reflexivity.
Defined.

(** X12.  [lastPluginUpdate] is set, to the second clock reading of the
    call, in exactly the runs that get to [git fetch]: a fetch, a signature
    check or a checkout that fails starts the cooldown like a success,
    while a call turned away by a guard, or stopped because the repository
    could not be made, leaves the time stamp as it was. *)
Theorem cooldown_starts_with_the_fetch {L : Libs} (env : Env)
        (ver : string) (st : State) :
  ((exists d b, In (GitFetch d, b) (events (UpdatePlugin env ver) st)) ->
   lastPluginUpdate (final (UpdatePlugin env ver) st)
   = wrap64 (clock env (S (ticks st)))) /\
  ((forall d b, ~ In (GitFetch d, b) (events (UpdatePlugin env ver) st)) ->
   lastPluginUpdate (final (UpdatePlugin env ver) st) = lastPluginUpdate st).
Proof.
  unfold final, events.
  destruct (UpdatePlugin env ver st) as [[r st'] t] eqn:Hrun. simpl.
  unfold_update Hrun. run_paths Hrun.
  all: injection Hrun as <- <- <-.
  all: split.
  all: try (intros [d [b Hin]]; first [reflexivity | in_cases Hin]; fail).
  all: intros Hno; first [reflexivity | exfalso; eapply Hno; find_in].
Qed.

(** X13.  Every report [UpdatePlugin] sends carries the host name, and one
    of three metric names: [git-fail], [alt-key-fail], [signature-fail]. *)
Theorem reports_use_three_metrics {L : Libs} (env : Env)
        (ver : string) (st : State)
        (ep metric desc : string) (ts : Z) (b : bool) :
  In (SendToTransfer ep metric ts desc, b)
     (events (UpdatePlugin env ver) st) ->
  ep = Hostname env /\
  (metric = ".satori.agent.plugin.git-fail" \/
   metric = ".satori.agent.plugin.alt-key-fail" \/
   metric = ".satori.agent.plugin.signature-fail").
Proof.
  unfold events.
  destruct (UpdatePlugin env ver st) as [[r st'] t] eqn:Hrun. simpl.
  intros Hin. unfold_update Hrun. run_paths Hrun.
  all: injection Hrun as <- <- <-.
  all: in_cases Hin.
  all: inversion Hin; subst.
  all: split; [reflexivity|].
  all: first [ left; reflexivity
             | right; left; reflexivity
             | right; right; reflexivity ].
Qed.
(** ** The helpers, path by path *)

(** X14.  [getAltSigningKeys] returns keys only when the key file is
    there, [git rev-list] named the revision that last changed it,
    [git cat-file] gave the text of that revision, [verifySignature]
    accepted it against the keys of the caller, and the file could be
    read: the keys are then the entries of the file.  With an error it
    returns no key. *)
Theorem alternate_keys_come_from_a_verified_file {L : Libs} (env : Env)
        (checkoutPath head keyFile : string) (validKeys : list string)
        (st : State) (keys : list string) (e : option error) :
  result (getAltSigningKeys env checkoutPath head keyFile validKeys) st
  = Ret (keys, e) ->
  let introducing :=
    strings.TrimSpace (cmdOut (git_rev_list env checkoutPath head keyFile)) in
  match e with
  | Some _ => keys = []
  | None =>
      IsExist env (path_Join checkoutPath keyFile) = true /\
      cmdErr (git_rev_list env checkoutPath head keyFile) = None /\
      cmdErr (git_cat_file env checkoutPath introducing) = None /\
      verifyContent (cmdOut (git_cat_file env checkoutPath introducing))
                    validKeys = Ret None /\
      exists content,
        ReadFile env (path_Join checkoutPath keyFile) = inl content /\
        keys = keyLines content
  end.
Proof.
  unfold result.
  destruct (getAltSigningKeys env checkoutPath head keyFile validKeys st)
    as [[r st'] t] eqn:Hrun. simpl.
  intros ->. cbv zeta.
  unfold getAltSigningKeys, verifySignature, run, bind, ret, lift, emit
    in Hrun.
  run_paths Hrun.
  all: try discriminate.
  all: injection Hrun as <- <- _ _.
  all: try reflexivity.
  apply negb_false_iff in Heqb.
  repeat split; try assumption. eexists; split; reflexivity.
Qed.

Lemma alternate_keys_come_from_a_verified_file_witness :
  IsExist Sample.altSigned (Sample.join "/opt/satori/plugin" "altkeys") = true /\
  cmdErr (git_rev_list Sample.altSigned "/opt/satori/plugin" "origin/master"
                       "altkeys") = None /\
  cmdErr (git_cat_file Sample.altSigned "/opt/satori/plugin"
            (strings.TrimSpace
               (cmdOut (git_rev_list Sample.altSigned "/opt/satori/plugin"
                                     "origin/master" "altkeys")))) = None /\
  verifyContent (L := Sample.libs)
    (cmdOut (git_cat_file Sample.altSigned "/opt/satori/plugin"
               (strings.TrimSpace
                  (cmdOut (git_rev_list Sample.altSigned "/opt/satori/plugin"
                                        "origin/master" "altkeys")))))
    [Sample.keyC] = Ret None /\
  exists content,
    ReadFile Sample.altSigned (Sample.join "/opt/satori/plugin" "altkeys")
    = inl content /\
    [Sample.keyB] = keyLines content.
Proof.
  apply (alternate_keys_come_from_a_verified_file (L := Sample.libs)
           Sample.altSigned "/opt/satori/plugin" "origin/master" "altkeys"
           [Sample.keyC] Sample.start (keys := [Sample.keyB]) (e := None)).
  vm_compute. reflexivity.
Defined.

(** X15.  [ensureGitRepo] runs nothing when the path exists.  It removes a
    directory in one case only: [git init] made it and
    [git remote add] failed; the directory is then the checkout path and an
    error is returned.  A success means the path was there or both commands
    succeeded. *)
Theorem ensureGitRepo_cleans_up_only_its_own_repo (env : Env)
        (path remote : string) (st : State) :
  (IsExist env path = true ->
   ensureGitRepo env path remote st = (Ret None, st, [])) /\
  (forall p b,
      In (RemoveAll p, b) (events (ensureGitRepo env path remote) st) ->
      p = path /\ IsExist env path = false /\
      cmdErr (git_init env path) = None /\
      exists err,
        cmdErr (git_remote_add env path remote) = Some err /\
        result (ensureGitRepo env path remote) st
        = Ret (Some ("Can't set repo remote, aborting: " +++ err))) /\
  (result (ensureGitRepo env path remote) st = Ret None ->
   IsExist env path = true \/
   (cmdErr (git_init env path) = None /\
    cmdErr (git_remote_add env path remote) = None)) /\
  final (ensureGitRepo env path remote) st = st.
Proof.
  unfold result, events, final.
  destruct (ensureGitRepo env path remote st) as [[r st'] t] eqn:Hrun. simpl.
  unfold ensureGitRepo, logPrintln, run, bind, ret, emit in Hrun.
  destruct (IsExist env path) eqn:Hex; run_paths Hrun.
  all: injection Hrun as <- <- <-.
  all: (split; [|split; [|split]]); try reflexivity; try discriminate.
  all: try (intros p fl Hin; in_cases Hin; fail).
  all: try (intros _; auto; fail).
  intros p fl Hin. in_cases Hin. injection Hin as <- _.
  repeat split; try assumption. eexists; split; reflexivity.
Qed.
(** ** [TrySelfUpdate], path by path *)

Ltac unfold_self Hrun :=
  unfold TrySelfUpdate, selfUpdateScript, readWhole, when, logPrintln,
    bind, ret, lift, emit in Hrun.

(** X16.  For plain paths of the running binary and of the candidate (the
    shell passes them on unchanged, each as one word): [TrySelfUpdate]
    calls [syscall.Exec] only on the path of the running binary, with the
    arguments and the environment of the process, and only after the
    digests were found different and the rename and the copy both ran and
    succeeded; the call then ends with the process replaced, or returns
    the error of a failed exec. *)
Theorem exec_only_after_the_swap {L : Libs} (env : Env) (st : State)
        (p : string) (argv envv : list string) (b : bool) :
  let new := path_Join (CheckoutPath (Plugin (Config env))) "satori-agent" in
  plainPath p = true ->
  plainPath new = true ->
  In (Exec p argv envv, b) (events (TrySelfUpdate env) st) ->
  Executable env = inl p /\ argv = Args env /\ envv = Environ env /\
  exists selfBytes newBytes,
    readWhole env p = inl selfBytes /\
    readWhole env new = inl newBytes /\
    sha256_Sum selfBytes <> sha256_Sum newBytes /\
    let backup := p +++ "." +++ hex_EncodeToString (sha256_Sum selfBytes) in
    sh_mv env p backup = None /\
    sh_cp_a env new p = None /\
    In (ShRename p backup, b) (events (TrySelfUpdate env) st) /\
    In (ShCopy new p, b) (events (TrySelfUpdate env) st) /\
    (result (TrySelfUpdate env) st = Replaced \/
     result (TrySelfUpdate env) st = Ret (Some "Can't do exec!")).
Proof.
  intros new. subst new. intros _ _. unfold result, events.
  destruct (TrySelfUpdate env st) as [[r st'] t] eqn:Hrun. simpl.
  intros Hin. unfold_self Hrun. run_paths Hrun.
  all: injection Hrun as <- <- <-.
  all: in_cases Hin.
  all: injection Hin as <- <- <- <-.
  all: split; [reflexivity|]; split; [reflexivity|]; split; [reflexivity|].
  all: eexists _, _; unfold readWhole.
  all: repeat match goal with
         | H : os_Open _ _ = _ |- _ => rewrite H; clear H
         | H : io_Copy _ _ = _ |- _ => rewrite H; clear H
         end.
  all: split; [reflexivity|]; split; [reflexivity|].
  all: split;
    [ intros Heq; apply bytes_Equal_eq in Heq; congruence |].
  all: cbv zeta; repeat split; try assumption; try find_in.
  all: reflexivity.
Qed.

Lemma exec_only_after_the_swap_witness :
  Executable Sample.altSigned = inl Sample.selfPath /\
  ["satori-agent"] = Args Sample.altSigned /\
  [] = Environ Sample.altSigned /\
  exists selfBytes newBytes,
    readWhole Sample.altSigned Sample.selfPath = inl selfBytes /\
    readWhole Sample.altSigned
      (path_Join (Libs := Sample.libs)
         (CheckoutPath (Plugin (Config Sample.altSigned))) "satori-agent")
    = inl newBytes /\
    sha256_Sum (Libs := Sample.libs) selfBytes
    <> sha256_Sum (Libs := Sample.libs) newBytes /\
    let backup :=
      Sample.selfPath +++ "."
      +++ hex_EncodeToString (sha256_Sum (Libs := Sample.libs) selfBytes) in
    sh_mv Sample.altSigned Sample.selfPath backup = None /\
    sh_cp_a Sample.altSigned
      (path_Join (Libs := Sample.libs)
         (CheckoutPath (Plugin (Config Sample.altSigned))) "satori-agent")
      Sample.selfPath = None /\
    In (ShRename Sample.selfPath backup, false)
       (events (TrySelfUpdate (L := Sample.libs) Sample.altSigned)
               Sample.start) /\
    In (ShCopy
          (path_Join (Libs := Sample.libs)
             (CheckoutPath (Plugin (Config Sample.altSigned))) "satori-agent")
          Sample.selfPath, false)
       (events (TrySelfUpdate (L := Sample.libs) Sample.altSigned)
               Sample.start) /\
    (result (TrySelfUpdate (L := Sample.libs) Sample.altSigned) Sample.start
     = Replaced \/
     result (TrySelfUpdate (L := Sample.libs) Sample.altSigned) Sample.start
     = Ret (Some "Can't do exec!")).
Proof.
  apply (exec_only_after_the_swap (L := Sample.libs) Sample.altSigned
           Sample.start).
  - reflexivity.
  - reflexivity.
  - vm_compute. do 3 right. left. reflexivity.
Defined.

(** X17.  [TrySelfUpdate] always leaves the guard state as it was.  For
    plain paths of the running binary and of the candidate (the shell
    passes them on unchanged, each as one word) it touches two paths only,
    whatever happens: it removes nothing but the backup path (the path of
    the running binary, a dot, the digest of the running binary in
    hexadecimal), renames nothing but the running binary onto that backup
    path, copies nothing but the candidate onto the path of the running
    binary; besides that it writes to the log and calls exec. *)
Theorem self_update_touches_two_paths {L : Libs} (env : Env) (st : State) :
  let new := path_Join (CheckoutPath (Plugin (Config env))) "satori-agent" in
  final (TrySelfUpdate env) st = st /\
  ((forall p, Executable env = inl p -> plainPath p = true) ->
   plainPath new = true ->
   forall e b,
     In (e, b) (events (TrySelfUpdate env) st) ->
     match e with
     | Log _ => True
     | Exec p _ _ => Executable env = inl p
     | ShRemove p =>
         exists self selfBytes,
           Executable env = inl self /\ readWhole env self = inl selfBytes /\
           p = self +++ "." +++ hex_EncodeToString (sha256_Sum selfBytes)
     | ShRename a c =>
         exists selfBytes,
           Executable env = inl a /\ readWhole env a = inl selfBytes /\
           c = a +++ "." +++ hex_EncodeToString (sha256_Sum selfBytes)
     | ShCopy a c => a = new /\ Executable env = inl c
     | _ => False
     end).
Proof.
  intros new. subst new. unfold final, events.
  destruct (TrySelfUpdate env st) as [[r st'] t] eqn:Hrun. simpl.
  unfold_self Hrun. run_paths Hrun.
  all: injection Hrun as <- <- <-.
  all: split; [reflexivity|].
  all: intros _ _ ev fl Hin.
  all: in_cases Hin.
  all: injection Hin as <- _.
  all: try exact I.
  all: try reflexivity.
  all: try (split; reflexivity).
  all: repeat eexists; unfold readWhole.
  all: repeat match goal with
         | H : os_Open _ _ = _ |- _ => rewrite H; clear H
         | H : io_Copy _ _ = _ |- _ => rewrite H; clear H
         end.
  all: reflexivity.
Qed.

Lemma self_update_touches_two_paths_witness :
  path_Join (Libs := Sample.libs)
    (CheckoutPath (Plugin (Config Sample.altSigned))) "satori-agent"
  = path_Join (Libs := Sample.libs)
      (CheckoutPath (Plugin (Config Sample.altSigned))) "satori-agent" /\
  Executable Sample.altSigned = inl Sample.selfPath.
Proof.
  refine (proj2 (self_update_touches_two_paths (L := Sample.libs)
                   Sample.altSigned Sample.start)
            _ _
            (ShCopy (path_Join (Libs := Sample.libs)
                       (CheckoutPath (Plugin (Config Sample.altSigned)))
                       "satori-agent")
                    Sample.selfPath)
            false _).
  - intros p H. injection H as <-. reflexivity.
  - reflexivity.
  - vm_compute. right. left. reflexivity.
Defined.
(** ** The version of the plugins, and the forced reset *)

(** X18.  [GetCurrentPluginVersion] returns a version only without an
    error, and the version has no space at either end: it is the trimmed
    output of the one command run, nothing is reported and no state
    changes.  With an error the version is empty, and unless the plugins
    are disabled the failure was reported; [updateInflight] and
    [lastPluginUpdate] are never changed. *)
Theorem version_is_trimmed_or_failure_reported (env : Env) (repo : RepoEnv)
        (st : State) :
  let dir := CheckoutPath (Plugin (Config env)) in
  let out := GetCurrentPluginVersion env repo st in
  let version := fst (fst (fst out)) in
  let st' := snd (fst out) in
  updateInflight st' = updateInflight st /\
  lastPluginUpdate st' = lastPluginUpdate st /\
  match snd (fst (fst out)) with
  | None =>
      version = strings.TrimSpace (runStdout (git_rev_parse_HEAD repo dir)) /\
      strings.TrimSpace version = version /\
      st' = st /\
      snd out = [(GitRevParseHead dir, updateInflight st)]
  | Some err =>
      version = "" /\
      (Enabled (Plugin (Config env)) = false \/
       exists metric ts desc,
         In (UpdateEvent (SendToTransfer (Hostname env) metric ts desc),
             updateInflight st) (snd out))
  end.
Proof.
  cbv zeta. unfold GetCurrentPluginVersion, reportFailure, timeNow, bind,
    emit, liftEvents.
  destruct (Enabled (Plugin (Config env))); simpl;
    [|repeat split; now left].
  destruct (IsExist env (CheckoutPath (Plugin (Config env)))); simpl.
  - destruct (runErr (git_rev_parse_HEAD repo _)); simpl.
    + repeat split. right. eexists _, _, _. right. left. reflexivity.
    + repeat split. apply TrimSpace_twice.
  - repeat split. right. eexists _, _, _. left. reflexivity.
Qed.

(** X19.  [ForceResetPlugin] returns nil without running anything when
    the checkout path does not exist; it never runs more than
    [git reset --hard] in the checkout path, reports nothing, leaves the
    state alone and does not look at [updateInflight]; an error means that
    the plugins are disabled or that the command failed. *)
Theorem forced_reset_is_silent_without_directory (env : Env)
        (repo : RepoEnv) (st : State) :
  let dir := CheckoutPath (Plugin (Config env)) in
  let out := ForceResetPlugin env repo st in
  snd (fst out) = st /\
  (Enabled (Plugin (Config env)) = true -> IsExist env dir = false ->
   out = (None, st, [])) /\
  (forall e b, In (e, b) (snd out) ->
               e = GitResetHardWorktree dir /\
               Enabled (Plugin (Config env)) = true /\
               IsExist env dir = true) /\
  (forall err, fst (fst out) = Some err ->
               Enabled (Plugin (Config env)) = false \/
               exists cause,
                 cmdErr (git_reset_hard_worktree repo dir) = Some cause /\
                 err = "git reset --hard failed: " +++ cause +++ nl
                       +++ cmdOut (git_reset_hard_worktree repo dir)).
Proof.
  cbv zeta. unfold ForceResetPlugin.
  destruct (Enabled (Plugin (Config env))); simpl.
  - destruct (IsExist env (CheckoutPath (Plugin (Config env)))); simpl.
    + destruct (cmdErr (git_reset_hard_worktree repo _)) eqn:E; simpl.
      * repeat split; try discriminate.
        -- now destruct H as [H|[]]; injection H as <- _.
        -- intros err H. injection H as <-. right. eexists. split; reflexivity.
      * repeat split; try discriminate.
        now destruct H as [H|[]]; injection H as <- _.
    + repeat split; try discriminate; contradiction.
  - repeat split; try discriminate; try contradiction.
    intros err _. now left.
Qed.
(** ** Where a panic can come from *)

Lemma splitFrom_some (sep : ascii) (s : string) :
  forall cur, exists x rest, strings.splitFrom sep cur s = x :: rest.
Proof.
  induction s as [|c s IH]; intros cur; simpl.
  - eexists _, _. reflexivity.
  - destruct (Ascii.eqb c sep); [eexists _, _; reflexivity | apply IH].
Qed.

Lemma splitFrom_two (s : string) :
  forall cur, freeOf colon s = false ->
    exists x y rest, strings.splitFrom colon cur s = x :: y :: rest.
Proof.
  induction s as [|c s IH]; intros cur H; simpl in *; [discriminate|].
  destruct (Ascii.eqb c colon) eqn:E; simpl in H.
  - destruct (splitFrom_some colon s []) as [y [rest ->]].
    eexists _, _, _. reflexivity.
  - apply IH. exact H.
Qed.

Lemma pickKey_returns (keys : list string) (keyid key0 : string) :
  Forall (fun k => strings.Fields k <> []) keys ->
  exists k, pickKey keys keyid key0 = Ret k.
Proof.
  induction 1 as [|e ks He Hks IH]; simpl.
  - now exists key0.
  - destruct (strings.HasPrefix e keyid); [|exact IH].
    unfold index. destruct (strings.Fields e) as [|f fs]; [congruence|].
    now exists f.
Qed.

(** X20.  [verifySignature] does not panic, and so returns nil or an
    error, on every commit text in which each [satori-sign] line has a
    colon after the marker, provided each trusted entry has a field. *)
Theorem no_panic_on_well_formed_records {L : Libs}
        (content : string) (validKeys : list string) :
  Forall (fun k => strings.Fields k <> []) validKeys ->
  forallb (fun l =>
             negb (isSignLine l)
             || negb (freeOf colon
                        (strings.TrimSpace
                           (strings.drop (String.length "satori-sign ") l))))
          (strings.Split content LF) = true ->
  exists o, verifyContent content validKeys = Ret o.
Proof.
  intros Hkeys Hlines. unfold verifyContent.
  assert (H : forall lines st,
             forallb (fun l =>
                        negb (isSignLine l)
                        || negb (freeOf colon
                                   (strings.TrimSpace
                                      (strings.drop
                                         (String.length "satori-sign ") l))))
                     lines = true ->
             exists st1, scanLines validKeys st lines = Ret st1).
  { induction lines as [|l rest IH]; intros st Hl;
      cbn [forallb scanLines] in *.
    - now exists st.
    - apply andb_true_iff in Hl as [Hl Hrest].
      assert (Hone : exists st0, scanLine validKeys st l = Ret st0).
      { unfold scanLine. unfold isSignLine in Hl.
        destruct (strings.HasPrefix l "tree ") eqn:Et;
          [eexists; reflexivity|].
        destruct (strings.HasPrefix l "satori-sign ") eqn:Es;
          [|eexists; reflexivity].
        cbn [negb andb orb] in Hl. apply negb_true_iff in Hl.
        destruct (splitFrom_two _ [] Hl) as [x [y [more Hs]]].
        unfold strings.Split. rewrite Hs. cbn [index nth_error rbind].
        destruct (pickKey_returns x (key st) Hkeys) as [k ->].
        cbn [rbind]. eexists; reflexivity. }
      destruct Hone as [st0 ->]. cbn [rbind]. apply IH. exact Hrest. }
  destruct (H _ {| tree := ""; key := ""; sign := "" |} Hlines) as [st1 ->].
  simpl. eexists; reflexivity.
Qed.

Lemma no_panic_on_well_formed_records_witness :
  exists o,
    verifyContent (L := Sample.libs)
      (Sample.commit [Sample.signA; Sample.signB])
      [Sample.keyA; Sample.keyC] = Ret o.
Proof.
  apply (no_panic_on_well_formed_records (L := Sample.libs)).
  - repeat constructor; discriminate.
  - vm_compute. reflexivity.
Defined.

Lemma ends_one {A : Type} (x : A) : exists pre, [x] = pre ++ [x].
Proof. now exists []. Qed.

Lemma ends_cons {A : Type} (a x : A) (l : list A) :
  (exists pre, l = pre ++ [x]) -> exists pre, a :: l = pre ++ [x].
Proof. intros [pre ->]. now exists (a :: pre). Qed.

Lemma ends_app {A : Type} (x : A) (l1 l2 : list A) :
  (exists pre, l2 = pre ++ [x]) -> exists pre, l1 ++ l2 = pre ++ [x].
Proof. intros [pre ->]. exists (l1 ++ pre). now rewrite app_assoc. Qed.

Ltac ends_with :=
  repeat first [ apply ends_one | apply ends_cons | apply ends_app ].

(** X21.  [UpdatePlugin] panics only in the scan of a commit text: when it
    ends in a panic, keys are configured, the fetch has succeeded, the flag
    is clear, and the last event of the run is the [git cat-file] of a
    revision whose text makes [verifySignature] panic with that message,
    against the configured keys or against alternate keys followed by the
    configured ones; so nothing, and no report, follows the reading of that
    text. *)
Theorem panic_comes_from_a_commit_text {L : Libs} (env : Env)
        (ver : string) (st : State) (msg : string) :
  let cfg := Plugin (Config env) in
  result (UpdatePlugin env ver) st = Panic msg ->
  SigningKeys cfg <> [] /\
  cmdErr (git_fetch env (CheckoutPath cfg)) = None /\
  updateInflight (final (UpdatePlugin env ver) st) = false /\
  exists rev keys b,
    (exists pre,
        events (UpdatePlugin env ver) st
        = pre ++ [(GitCatFile (CheckoutPath cfg) rev, b)]) /\
    (keys = SigningKeys cfg \/ exists alt, keys = alt ++ SigningKeys cfg) /\
    cmdErr (git_cat_file env (CheckoutPath cfg) rev) = None /\
    verifyContent (cmdOut (git_cat_file env (CheckoutPath cfg) rev)) keys
    = Panic msg.
Proof.
  intros cfg. subst cfg. unfold result, events, final.
  destruct (UpdatePlugin env ver st) as [[r st'] t] eqn:Hrun. simpl.
  intros ->. unfold_update Hrun. run_paths Hrun.
  all: try discriminate.
  all: injection Hrun as <- <- <-.
  all: split;
    [ intros Hnil;
      match goal with
      | H : List.length ?l = S _ |- _ => rewrite Hnil in H; discriminate
      end |].
  all: split; [reflexivity|]; split; [reflexivity|].
  all: eexists _, _, _; split; [|split; [|split; [|eassumption]]];
         [| |eassumption].
  all: try ends_with.
  all: first [left; reflexivity | right; eexists; reflexivity].
Qed.

(** X22.  A failure to get the alternate keys is not fatal: the signature
    check of the target then uses the configured keys alone, and the
    failure is reported under [alt-key-fail] with its text. *)
Theorem alternate_key_failure_falls_back {L : Libs} (env : Env)
        (ver : string) (st : State) (ks : list string) (err : error) :
  let cfg := Plugin (Config env) in
  AltSigningKeysFile cfg <> "" ->
  result (getAltSigningKeys env (CheckoutPath cfg) ver
            (AltSigningKeysFile cfg) (SigningKeys cfg)) st
  = Ret (ks, Some err) ->
  result (trustedKeys env ver) st = Ret (SigningKeys cfg) /\
  exists ts b,
    In (SendToTransfer (Hostname env) ".satori.agent.plugin.alt-key-fail"
                       ts err, b)
       (events (trustedKeys env ver) st).
Proof.
  intros cfg Hfile Halt.
  unfold trustedKeys. fold cfg.
  apply String.eqb_neq in Hfile. rewrite Hfile. simpl negb. cbv iota.
  unfold result at 1, events. rewrite (bind_run _ _ _ Halt). simpl.
  split; [reflexivity|].
  eexists _, _. apply in_or_app. right.
  unfold events, bind, logPrintln, reportFailure, bind, timeNow, emit, ret.
  simpl. right. left. reflexivity.
Qed.

Lemma alternate_key_failure_falls_back_witness :
  result (trustedKeys (L := Sample.libs) Sample.introUntrusted "origin/master")
         Sample.start
  = Ret (SigningKeys (Plugin (Config Sample.introUntrusted))) /\
  exists ts b,
    In (SendToTransfer (Hostname Sample.introUntrusted)
          ".satori.agent.plugin.alt-key-fail" ts "Signing key untrusted", b)
       (events (trustedKeys (L := Sample.libs) Sample.introUntrusted
                  "origin/master") Sample.start).
Proof.
  apply (alternate_key_failure_falls_back (L := Sample.libs)
           Sample.introUntrusted "origin/master" Sample.start (ks := [])).
  - discriminate.
  - vm_compute. reflexivity.
Defined.
(** ** The properties of the runs at the sample worlds *)

Lemma checkout_only_after_verification_witness :
  "/opt/satori/plugin" = CheckoutPath (Plugin (Config Sample.altSigned)) /\
  "origin/master" = "origin/master" /\
  cmdErr (git_cat_file Sample.altSigned
            (CheckoutPath (Plugin (Config Sample.altSigned)))
            "origin/master") = None /\
  exists keys,
    (keys = SigningKeys (Plugin (Config Sample.altSigned)) \/
     exists alt, keys = alt ++ SigningKeys (Plugin (Config Sample.altSigned)))
    /\
    verifyContent (L := Sample.libs)
      (cmdOut (git_cat_file Sample.altSigned
                 (CheckoutPath (Plugin (Config Sample.altSigned)))
                 "origin/master")) keys
    = Ret None.
Proof.
  apply (checkout_only_after_verification (L := Sample.libs)
           Sample.altSigned "" Sample.start
           "/opt/satori/plugin" "origin/master" false).
  - discriminate.
  - vm_compute. do 6 right. left. reflexivity.
Defined.

Lemma success_means_fetched_and_checked_out_witness :
  cmdErr (git_fetch Sample.altSigned
            (CheckoutPath (Plugin (Config Sample.altSigned)))) = None /\
  cmdErr (git_reset_hard Sample.altSigned
            (CheckoutPath (Plugin (Config Sample.altSigned)))
            "origin/master") = None /\
  In (GitFetch (CheckoutPath (Plugin (Config Sample.altSigned))), true)
     (events (UpdatePlugin (L := Sample.libs) Sample.altSigned "")
             Sample.start) /\
  In (GitResetHard (CheckoutPath (Plugin (Config Sample.altSigned)))
                   "origin/master", false)
     (events (UpdatePlugin (L := Sample.libs) Sample.altSigned "")
             Sample.start) /\
  updateInflight (final (UpdatePlugin (L := Sample.libs) Sample.altSigned "")
                        Sample.start) = false.
Proof.
  apply (success_means_fetched_and_checked_out (L := Sample.libs)
           Sample.altSigned "" Sample.start).
  vm_compute. reflexivity.
Defined.

Lemma every_failure_is_reported_witness :
  ("Signing key untrusted" = "plugin not enabled" \/
   "Signing key untrusted" = "Previous update inflight, do nothing" \/
   "Signing key untrusted" = "Previous update too recent, do nothing") \/
  exists subject ts b,
    In (SendToTransfer (Hostname Sample.targetUntrusted)
          (".satori.agent.plugin." +++ subject) ts "Signing key untrusted", b)
       (events (UpdatePlugin (L := Sample.libs) Sample.targetUntrusted "")
               Sample.start) /\
    (subject = "git-fail" \/ subject = "signature-fail").
Proof.
  apply (every_failure_is_reported (L := Sample.libs)
           Sample.targetUntrusted "" Sample.start).
  vm_compute. reflexivity.
Defined.

Lemma reports_use_three_metrics_witness :
  "node1" = Hostname Sample.targetUntrusted /\
  (".satori.agent.plugin.signature-fail" = ".satori.agent.plugin.git-fail" \/
   ".satori.agent.plugin.signature-fail"
   = ".satori.agent.plugin.alt-key-fail" \/
   ".satori.agent.plugin.signature-fail"
   = ".satori.agent.plugin.signature-fail").
Proof.
  apply (reports_use_three_metrics (L := Sample.libs)
           Sample.targetUntrusted "" Sample.start
           "node1" ".satori.agent.plugin.signature-fail"
           "Signing key untrusted" 1480000002 false).
  vm_compute. do 4 right. left. reflexivity.
Defined.

Lemma panic_comes_from_a_commit_text_witness :
  SigningKeys (Plugin (Config Sample.targetNoColon)) <> [] /\
  cmdErr (git_fetch Sample.targetNoColon
            (CheckoutPath (Plugin (Config Sample.targetNoColon)))) = None /\
  updateInflight (final (UpdatePlugin (L := Sample.libs)
                           Sample.targetNoColon "") Sample.start) = false /\
  exists rev keys b,
    (exists pre,
        events (UpdatePlugin (L := Sample.libs) Sample.targetNoColon "")
               Sample.start
        = pre ++ [(GitCatFile
                     (CheckoutPath (Plugin (Config Sample.targetNoColon)))
                     rev, b)]) /\
    (keys = SigningKeys (Plugin (Config Sample.targetNoColon)) \/
     exists alt,
       keys = alt ++ SigningKeys (Plugin (Config Sample.targetNoColon))) /\
    cmdErr (git_cat_file Sample.targetNoColon
              (CheckoutPath (Plugin (Config Sample.targetNoColon))) rev)
    = None /\
    verifyContent (L := Sample.libs)
      (cmdOut (git_cat_file Sample.targetNoColon
                 (CheckoutPath (Plugin (Config Sample.targetNoColon))) rev))
      keys
    = Panic "runtime error: index out of range".
Proof.
  apply (panic_comes_from_a_commit_text (L := Sample.libs)
           Sample.targetNoColon "" Sample.start).
  vm_compute. reflexivity.
Defined.
